(** * firefly-ethconnect: the REST gateway, its in-flight limiter, the
      synchronous responder, the remote registry client and the
      transaction sender, as a shallow embedding.

    Go values are modelled as follows.  An [int] is a [Z]; a [string] is a
    [string] of bytes (the texts the gateway handles are ASCII); a nil-able
    pointer or interface is an [option]; a [map[string]T] is a
    [gmap string T]; a [(T, error)] result is a sum [error + T].  A method
    that mutates its receiver returns the new receiver next to its results.
    A block of code guarded by a mutex is one atomic step of the model.

    The file has two parts: the embedding of the code, package by package,
    and then the properties proved of it. *)

From Stdlib Require Import ZArith NArith Lia List Ascii String Bool.
From Stdlib Require Import DecimalString HexadecimalString HexadecimalN.
From stdpp Require Import base option gmap strings list fin_maps.

Local Open Scope string_scope.
Local Open Scope Z_scope.

(* ===================================================================== *)
(** * Part I: the embedding                                               *)
(* ===================================================================== *)

(** ** internal/errors *)

Module errors.

(** The message identifiers that the embedded code passes to
    [errors.Errorf]. *)
Inductive ErrorID :=
| WebhooksDirectTooManyInflight
| WebhooksDirectBadHeaders
| ConfigWebhooksDirectRPC
| RESTGatewayInstanceNotFound
| RESTGatewayMethodABIInvalid
| RESTGatewayEventABIInvalid
| RESTGatewayEventNotDeclared
| RESTGatewayMethodNotDeclared
| RESTGatewayInvalidToAddress
| RESTGatewayInvalidFromAddress
| RESTGatewayMissingParameter
| RESTGatewayMissingFromAddress
| RemoteRegistryCacheInit
| RemoteRegistryLookupGenericProcessingFailed
| RemoteRegistryNotConfigured
| RemoteRegistryRegistrationFailed.

(** A Go [error]: one built by [errors.Errorf] from an identifier and its
    arguments (the last of which may be another error), or one that a
    collaborator returned, known by its text. *)
Inductive error :=
| Errorf (id : ErrorID) (args : list string)
| ErrorfWrap (id : ErrorID) (args : list string) (cause : error)
| External (text : string).

(** Modelled from the spec: internal/errors is not among the sources; of
    the message templates it declares, these are the ones whose text the
    design document quotes in full. *)
Definition template (id : ErrorID) : option string :=
  match id with
  | WebhooksDirectTooManyInflight => Some "Too many messages currently in flight"
  | WebhooksDirectBadHeaders => Some "Invalid headers in message"
  | RemoteRegistryCacheInit => Some "Failed to initialize cache for remote registry"
  | RemoteRegistryLookupGenericProcessingFailed =>
      Some "Error processing contract registry response"
  | RemoteRegistryRegistrationFailed =>
      Some "Failed to register instance in remote registry"
  | _ => None
  end.

End errors.
Export errors.

(** ** The functions of Go's [strings], [strconv] and [regexp] that the
       embedded code calls *)

Module gostrings.

Definition HasPrefix (s p : string) : bool := String.prefix p s.

Definition TrimPrefix (s p : string) : string :=
  if String.prefix p s
  then String.substring (String.length p) (String.length s - String.length p) s
  else s.

Definition HasSuffix (s p : string) : bool :=
  (String.length p <=? String.length s)%nat
  && String.eqb (String.substring (String.length s - String.length p)
                                  (String.length p) s) p.

Definition TrimSuffix (s p : string) : string :=
  if HasSuffix s p
  then String.substring 0 (String.length s - String.length p) s
  else s.

Definition in_range (lo hi : ascii) (c : ascii) : bool :=
  ((nat_of_ascii lo <=? nat_of_ascii c) && (nat_of_ascii c <=? nat_of_ascii hi))%nat.

Definition lower_ascii (c : ascii) : ascii :=
  if in_range "A" "Z" c then ascii_of_nat (nat_of_ascii c + 32) else c.

(** [strconv.Itoa], on a non-negative index. *)
Definition Itoa (i : nat) : string :=
  DecimalString.NilZero.string_of_uint (Nat.to_uint i).

Fixpoint all_chars (p : ascii -> bool) (s : string) : bool :=
  match s with
  | EmptyString => true
  | String c r => p c && all_chars p r
  end.

Definition is_digit (c : ascii) : bool := in_range "0" "9" c.

(** Go's [unicode] tables are not part of the repository.  What they make
    of a string that has a byte outside ASCII, that is
    [strings.Map(unicode.ToLower, s)], is a parameter of the
    development. *)
Class UnicodeTables := {
  Map_unicode_ToLower : string -> string;
}.

(** A string of bytes below [utf8.RuneSelf]. *)
Definition isASCII (s : string) : bool :=
  all_chars (fun c => (nat_of_ascii c <? 128)%nat) s.

Fixpoint lowerASCII (s : string) : string :=
  match s with
  | EmptyString => EmptyString
  | String c r => String (lower_ascii c) (lowerASCII r)
  end.

(** [strings.ToLower]: a string of ASCII bytes is lowered byte by byte;
    any other string is mapped rune by rune through [unicode.ToLower]. *)
Definition ToLower {U : UnicodeTables} (s : string) : string :=
  if isASCII s then lowerASCII s else Map_unicode_ToLower s.

Definition nonempty (s : string) : bool := negb (String.eqb s "").

(** The character class [[0-9a-z]]. *)
Definition is_0_9a_z (c : ascii) : bool := is_digit c || in_range "a" "z" c.

(** [strings.Split(s, sep)] for a one-byte separator: the pieces between
    the separators, in order; never empty. *)
Fixpoint Split (sep : ascii) (s : string) : list string :=
  match s with
  | EmptyString => [EmptyString]
  | String c r =>
      if Ascii.eqb c sep then EmptyString :: Split sep r
      else match Split sep r with
           | [] => [String c EmptyString]
           | p :: ps => String c p :: ps
           end
  end.

(** [net/url]: [shouldEscape] in the mode of a query component, and
    [QueryEscape]. *)
Definition unreserved (c : ascii) : bool :=
  in_range "a" "z" c || in_range "A" "Z" c || is_digit c
  || Ascii.eqb c "-" || Ascii.eqb c "_" || Ascii.eqb c "." || Ascii.eqb c "~".

Definition upperhex (n : nat) : ascii :=
  nth n (list_ascii_of_string "0123456789ABCDEF") "0"%char.

Fixpoint QueryEscape (s : string) : string :=
  match s with
  | EmptyString => EmptyString
  | String c r =>
      if Ascii.eqb c " " then String "+" (QueryEscape r)
      else if unreserved c then String c (QueryEscape r)
      else String "%" (String (upperhex (nat_of_ascii c / 16))
                         (String (upperhex (nat_of_ascii c mod 16)) (QueryEscape r)))
  end.

(** [encoding/hex]: [fromHexChar] and [DecodeString] ([None] for an odd
    length or a byte that is no hex digit). *)
Definition fromHexChar (c : ascii) : option nat :=
  if is_digit c then Some (nat_of_ascii c - 48)%nat
  else if in_range "a" "f" c then Some (nat_of_ascii c - 87)%nat
  else if in_range "A" "F" c then Some (nat_of_ascii c - 55)%nat
  else None.

Fixpoint DecodeString (s : string) : option string :=
  match s with
  | EmptyString => Some EmptyString
  | String _ EmptyString => None
  | String a (String b r) =>
      match fromHexChar a, fromHexChar b, DecodeString r with
      | Some x, Some y, Some t => Some (String (ascii_of_nat (16 * x + y)) t)
      | _, _, _ => None
      end
  end.

Definition lowerhex (n : nat) : ascii :=
  nth n (list_ascii_of_string "0123456789abcdef") "0"%char.

(** [hex.EncodeToString]. *)
Fixpoint EncodeToString (b : string) : string :=
  match b with
  | EmptyString => EmptyString
  | String c r =>
      String (lowerhex (nat_of_ascii c / 16))
        (String (lowerhex (nat_of_ascii c mod 16)) (EncodeToString r))
  end.

(** A slice expression [b[lo:hi]] of Go: [None] is the run-time panic of
    an index out of range. *)
Definition slice (b : string) (lo hi : nat) : option string :=
  if ((lo <=? hi) && (hi <=? String.length b))%nat
  then Some (String.substring lo (hi - lo) b)
  else None.

End gostrings.

(** ** internal/rest/webhooksdirect.go *)

Module webhooksdirect.

(** [messages.CommonHeaders], the fields the bridge reads. *)
Record CommonHeaders := {
  ID : string;
  MsgType : string;
}.

(** [WebhooksDirectConf]: [MaxInFlight], and the two embedded fields that
    [validateWebhooksDirectConf] reads. *)
Record WebhooksDirectConf := {
  MaxInFlight : Z;
  MaxTXWaitTime : Z;
  RPC_URL : string;
}.

(** [validateWebhooksDirectConf]: the configuration as the call leaves it,
    and the error. *)
Definition validateWebhooksDirectConf (c : WebhooksDirectConf)
    : WebhooksDirectConf * option error :=
  if String.eqb (RPC_URL c) "" then (c, Some (Errorf ConfigWebhooksDirectRPC []))
  else
    let c1 := if MaxTXWaitTime c <? 10
              then {| MaxInFlight := MaxInFlight c; MaxTXWaitTime := 10;
                      RPC_URL := RPC_URL c |}
              else c in
    let c2 := if MaxInFlight c1 <=? 0
              then {| MaxInFlight := 10; MaxTXWaitTime := MaxTXWaitTime c1;
                      RPC_URL := RPC_URL c1 |}
              else c1 in
    (c2, None).

Section Bridge.

(** The generic payload [map[string]interface{}], and the outcome of
    marshalling its ["headers"] entry and unmarshalling the bytes into a
    [CommonHeaders] ([None] when either step fails). *)
Variable Msg : Type.
Variable unmarshalHeaders : Msg -> option CommonHeaders.

(** The reply handed to [msgContext.Reply]. *)
Variable ReplyMsg : Type.

Record msgContext := {
  timeReceived : Z;
  key : string;
  msgID : string;
  msg : Msg;
  headers : CommonHeaders;
}.

(** [webhooksDirect].  The receipt store and the processor are external:
    the model keeps what was handed to each, newest first. *)
Record webhooksDirect := {
  conf : WebhooksDirectConf;
  inFlight : gmap string msgContext;
  receipts : list (string * ReplyMsg);
  processor : list msgContext;
}.

Definition newWebhooksDirect (c : WebhooksDirectConf) : webhooksDirect :=
  {| conf := c; inFlight := ∅; receipts := []; processor := [] |}.

(** [msgContext.Reply]: under the in-flight mutex, stamp the reply with
    the request ID, forward it to the receipt store, and delete the
    entry of [t.msgID]. *)
Definition Reply (t : msgContext) (replyMessage : ReplyMsg)
    (w : webhooksDirect) : webhooksDirect :=
  {| conf := conf w;
     inFlight := delete (msgID t) (inFlight w);
     receipts := (ID (headers t), replyMessage) :: receipts w;
     processor := processor w |}.

(** [webhooksDirect.sendWebhookMsg]: the new bridge and the triple
    [(msgAck, status, err)].  The map is read and written with the mutex
    held; the context goes to the processor after it is released. *)
Definition sendWebhookMsg (w : webhooksDirect) (now : Z)
    (key0 msgID0 : string) (msg0 : Msg) (ack : bool)
    : webhooksDirect * (string * Z * option error) :=
  let numInFlight := Z.of_nat (size (inFlight w)) in
  if MaxInFlight (conf w) <=? numInFlight then
    (w, ("", 429, Some (Errorf WebhooksDirectTooManyInflight [])))
  else
    match unmarshalHeaders msg0 with
    | None => (w, ("", 400, Some (Errorf WebhooksDirectBadHeaders [])))
    | Some hdrs =>
        let ctx := {| timeReceived := now; key := key0; msgID := msgID0;
                      msg := msg0; headers := hdrs |} in
        ({| conf := conf w;
            inFlight := <[msgID0 := ctx]> (inFlight w);
            receipts := receipts w;
            processor := ctx :: processor w |},
         ("", 200, None))
    end.

(** What can happen to a bridge: a dispatch, or a reply through a
    message context. *)
Inductive op :=
| OpSend (now : Z) (key0 msgID0 : string) (msg0 : Msg) (ack : bool)
| OpReply (t : msgContext) (replyMessage : ReplyMsg).

Definition step (w : webhooksDirect) (o : op) : webhooksDirect :=
  match o with
  | OpSend now k i m a => fst (sendWebhookMsg w now k i m a)
  | OpReply t r => Reply t r w
  end.

Definition run (ops : list op) (w : webhooksDirect) : webhooksDirect :=
  fold_left step ops w.

(** The size of the map as a holder of the mutex observes it. *)
Definition numInFlight (w : webhooksDirect) : Z := Z.of_nat (size (inFlight w)).

Definition status_of (r : webhooksDirect * (string * Z * option error)) : Z :=
  snd (fst (snd r)).

Definition err_of (r : webhooksDirect * (string * Z * option error)) : option error :=
  snd (snd r).

End Bridge.

Arguments msgID {Msg} _.
Arguments headers {Msg} _.
Arguments inFlight {Msg ReplyMsg} _.
Arguments conf {Msg ReplyMsg} _.
Arguments numInFlight {Msg ReplyMsg} _.
Arguments status_of {Msg ReplyMsg} _.
Arguments err_of {Msg ReplyMsg} _.

End webhooksdirect.

(** ** The contract gateway: rest2eth (package contractgateway) *)

Module contractgateway.
Import gostrings.

(** A JSON value as [encoding/json] decodes it into an [interface{}]. *)
#[local] Unset Elimination Schemes.
Inductive JSON :=
| JNull
| JBool (b : bool)
| JNumber (n : string)
| JString (s : string)
| JArray (l : list JSON)
| JObject (l : list (string * JSON)).
#[local] Set Elimination Schemes.

(** *** The messages and ABI types the gateway handles *)

(** [messages.TransactionReceipt], the field the responder reads. *)
Record TransactionReceipt := {
  ContractAddress : option string;
}.

(** The interface [messages.ReplyWithHeaders]: the message type of
    [ReplyHeaders()], and [IsReceipt()]. *)
Record ReplyWithHeaders := {
  ReplyHeaders_MsgType : string;
  IsReceipt : option TransactionReceipt;
}.

Record ABIArgumentMarshaling := {
  arg_Name : string;
  arg_Type : string;
}.

(** [ethbinding.ABIElementMarshaling]. *)
Record ABIElementMarshaling := {
  Type_ : string;
  Name : string;
  Inputs : list ABIArgumentMarshaling;
  Constant : bool;
}.

Definition ABIMarshaling : Type := list ABIElementMarshaling.

(** The receipt of a deployment: [IsReceipt()] is not nil and its
    [ContractAddress] is not nil. *)
Definition deployedContract (receipt : ReplyWithHeaders) : option TransactionReceipt :=
  match IsReceipt receipt with
  | Some txReceiptMsg =>
      match ContractAddress txReceiptMsg with
      | Some _ => Some txReceiptMsg
      | None => None
      end
  | None => None
  end.

(** [ethbinding.ABIMethod] and [ethbinding.ABIEvent], the fields read. *)
Record ABIMethod := {
  method_Name : string;
  method_Inputs : list string;
  IsConstant : bool;
}.

Record ABIEvent := {
  event_Name : string;
}.

(** [contractregistry.ABILocation]. *)
Inductive ABIType := LocalABI | RemoteGateway | RemoteInstance.

Record ABILocation := {
  loc_ABIType : ABIType;
  loc_Name : string;
}.

(** [messages.DeployContract], the fields the resolver reads and writes. *)
Record DeployContract := {
  Headers_ID : string;
  Headers_ABIID : string;
  ABI : ABIMarshaling;
}.

(** [contractregistry.DeployContractWithAddress]. *)
Record DeployContractWithAddress := {
  Contract : option DeployContract;
  Address : string;
}.

(** [contractregistry.ContractInfo], the field read. *)
Record ContractInfo := {
  info_ABI : string;
}.

(** The interface [contractregistry.ContractResolver], as the handler of
    one request sees it. *)
Record ContractResolver := {
  ResolveContractAddress : string -> error + string;
  GetContractByAddress : string -> error + ContractInfo;
  GetABI : ABILocation -> bool -> error + option DeployContractWithAddress;
}.

(** *** HTTP *)

(** [httprouter.Params] and its [ByName]. *)
Definition Params : Type := list (string * string).

Fixpoint ByName (ps : Params) (name : string) : string :=
  match ps with
  | [] => ""
  | (k, v) :: r => if String.eqb k name then v else ByName r name
  end.

(** An [*http.Request] as the handler reads it: the method, the path, the
    parsed form, the reserved parameters as [getFlyParam] returns them (""
    when absent), and the outcome of [utils.YAMLorJSONPayload]. *)
Record Request := {
  Method : string;
  URL_Path : string;
  Form : gmap string (list string);
  getFlyParam : string -> string;
  YAMLorJSONPayload : error + gmap string JSON;
}.

(** What a handler writes to the [http.ResponseWriter]. *)
Inductive Body :=
| BodyError (e : error)
| BodyReceipt (receipt : ReplyWithHeaders)
| BodyReceiptAndError (e : error) (receipt : ReplyWithHeaders).

Record Response := {
  status : Z;
  body : Body;
}.

(** [rest2eth.restErrReply]. *)
Definition restErrReply (res : list Response) (err : error) (status0 : Z)
    : list Response :=
  res ++ [{| status := status0; body := BodyError err |}].

(** *** The synchronous responder *)

Section Responder.

(** [SmartContractGateway.PostDeploy], over the state of the gateway;
    and the constant [messages.MsgTypeTransactionSuccess]. *)
Variable GW : Type.
Variable PostDeploy : GW -> TransactionReceipt -> GW * option error.
Variable MsgTypeTransactionSuccess : string.

(** [rest2EthSyncResponder]: the gateway behind [r], the response
    written so far, [done], and the broadcasts made on [waiter].  The
    model also keeps the receipts handed to the post-deploy hook. *)
Record rest2EthSyncResponder := {
  gw : GW;
  res : list Response;
  done : bool;
  broadcasts : nat;
  postDeployed : list TransactionReceipt;
}.

Definition ReplyWithError (i : rest2EthSyncResponder) (err : error)
    : rest2EthSyncResponder :=
  {| gw := gw i;
     res := restErrReply (res i) err 500;
     done := true;
     broadcasts := S (broadcasts i);
     postDeployed := postDeployed i |}.

Definition ReplyWithReceiptAndError (i : rest2EthSyncResponder)
    (receipt : ReplyWithHeaders) (err : error) : rest2EthSyncResponder :=
  let status0 := 500 in
  {| gw := gw i;
     res := res i ++ [{| status := status0;
                         body := BodyReceiptAndError err receipt |}];
     done := true;
     broadcasts := S (broadcasts i);
     postDeployed := postDeployed i |}.

Definition reply_plain (i : rest2EthSyncResponder)
    (receipt : ReplyWithHeaders) : rest2EthSyncResponder :=
  let status0 :=
    if String.eqb (ReplyHeaders_MsgType receipt) MsgTypeTransactionSuccess
    then 200 else 500 in
  {| gw := gw i;
     res := res i ++ [{| status := status0; body := BodyReceipt receipt |}];
     done := true;
     broadcasts := S (broadcasts i);
     postDeployed := postDeployed i |}.

Definition ReplyWithReceipt (i : rest2EthSyncResponder)
    (receipt : ReplyWithHeaders) : rest2EthSyncResponder :=
  match IsReceipt receipt with
  | Some txReceiptMsg =>
      match ContractAddress txReceiptMsg with
      | Some _ =>
          let '(gw', r) := PostDeploy (gw i) txReceiptMsg in
          let i' := {| gw := gw'; res := res i; done := done i;
                       broadcasts := broadcasts i;
                       postDeployed := postDeployed i ++ [txReceiptMsg] |} in
          match r with
          | Some err => ReplyWithReceiptAndError i' receipt err
          | None => reply_plain i' receipt
          end
      | None => reply_plain i receipt
      end
  | None => reply_plain i receipt
  end.

(** The three entry points of [rest2EthReplyProcessor]. *)
Inductive reply :=
| WithError (err : error)
| WithReceipt (receipt : ReplyWithHeaders)
| WithReceiptAndError (receipt : ReplyWithHeaders) (err : error).

Definition deliver (i : rest2EthSyncResponder) (r : reply)
    : rest2EthSyncResponder :=
  match r with
  | WithError err => ReplyWithError i err
  | WithReceipt receipt => ReplyWithReceipt i receipt
  | WithReceiptAndError receipt err => ReplyWithReceiptAndError i receipt err
  end.

(** A fresh responder, as [deployContract] and [sendTransaction] build
    it. *)
Definition newResponder (g : GW) : rest2EthSyncResponder :=
  {| gw := g; res := []; done := false; broadcasts := 0%nat;
     postDeployed := [] |}.

End Responder.

Arguments gw {GW} _.
Arguments res {GW} _.
Arguments done {GW} _.
Arguments broadcasts {GW} _.
Arguments postDeployed {GW} _.

(** *** Resolving a request *)

(** [addrCheck = regexp.MustCompile("^(0x)?[0-9a-z]{40}$")] and its
    [MatchString]. *)
Definition forty_0_9a_z (s : string) : bool :=
  (String.length s =? 40)%nat && all_chars is_0_9a_z s.

Definition addrCheck (s : string) : bool :=
  forty_0_9a_z s || (HasPrefix s "0x" && forty_0_9a_z (TrimPrefix s "0x")).

(** [tx.HDWalletRequest]. *)
Record HDWalletRequest := {
  InstanceID : string;
  WalletID : string;
  Index : string;
}.

(** Modelled from the spec: [tx.IsHDWalletRequest] is not among the
    sources; a reference is recognized by the regular expression
    [^hd-[^-]+-[^-]+-\d+$], that is, four pieces between three dashes: the
    literal [hd], two non-empty names, and a non-empty run of digits. *)
Definition IsHDWalletRequest (s : string) : option HDWalletRequest :=
  match Split "-" s with
  | [hd; inst; wallet; idx] =>
      if String.eqb hd "hd" && nonempty inst && nonempty wallet
         && nonempty idx && all_chars is_digit idx
      then Some {| InstanceID := inst; WalletID := wallet; Index := idx |}
      else None
  | _ => None
  end.

(** How a step of the handler ends: it goes on with a value; or it has
    written an error reply with a status through [restErrReply] and
    returned the error; or it has dereferenced a nil pointer. *)
Inductive outcome (A : Type) :=
| Done (a : A)
| Rejected (status0 : Z) (err : error)
| Panic.
Arguments Done {A} _.
Arguments Rejected {A} _ _.
Arguments Panic {A}.

#[export] Instance outcome_bind : MBind outcome := fun A B k m =>
  match m with
  | Done a => k a
  | Rejected s e => Rejected s e
  | Panic => Panic
  end.

(** [restCmd]. *)
Record restCmd := {
  c_from : string;
  c_addr : string;
  c_value : string;
  c_abiLocation : option ABILocation;
  c_abiMethod : option ABIMethod;
  c_abiMethodElem : option ABIElementMarshaling;
  c_abiEvent : option ABIEvent;
  c_abiEventElem : option ABIElementMarshaling;
  c_isDeploy : bool;
  c_deployMsg : option DeployContract;
  c_body : gmap string JSON;
  c_msgParams : list JSON;
  c_blocknumber : string;
  c_transactionHash : string;
}.

(** The zero value of [restCmd]. *)
Definition restCmd0 : restCmd :=
  {| c_from := ""; c_addr := ""; c_value := ""; c_abiLocation := None;
     c_abiMethod := None; c_abiMethodElem := None; c_abiEvent := None;
     c_abiEventElem := None; c_isDeploy := false; c_deployMsg := None;
     c_body := ∅; c_msgParams := []; c_blocknumber := "";
     c_transactionHash := "" |}.

Definition set_addr (v : string) (c : restCmd) : restCmd :=
  {| c_from := c_from c; c_addr := v; c_value := c_value c;
     c_abiLocation := c_abiLocation c; c_abiMethod := c_abiMethod c;
     c_abiMethodElem := c_abiMethodElem c; c_abiEvent := c_abiEvent c;
     c_abiEventElem := c_abiEventElem c; c_isDeploy := c_isDeploy c;
     c_deployMsg := c_deployMsg c; c_body := c_body c;
     c_msgParams := c_msgParams c; c_blocknumber := c_blocknumber c;
     c_transactionHash := c_transactionHash c |}.

Definition set_from (v : string) (c : restCmd) : restCmd :=
  {| c_from := v; c_addr := c_addr c; c_value := c_value c;
     c_abiLocation := c_abiLocation c; c_abiMethod := c_abiMethod c;
     c_abiMethodElem := c_abiMethodElem c; c_abiEvent := c_abiEvent c;
     c_abiEventElem := c_abiEventElem c; c_isDeploy := c_isDeploy c;
     c_deployMsg := c_deployMsg c; c_body := c_body c;
     c_msgParams := c_msgParams c; c_blocknumber := c_blocknumber c;
     c_transactionHash := c_transactionHash c |}.

Definition set_abi (loc : ABILocation) (d : DeployContract) (c : restCmd) : restCmd :=
  {| c_from := c_from c; c_addr := c_addr c; c_value := c_value c;
     c_abiLocation := Some loc; c_abiMethod := c_abiMethod c;
     c_abiMethodElem := c_abiMethodElem c; c_abiEvent := c_abiEvent c;
     c_abiEventElem := c_abiEventElem c; c_isDeploy := c_isDeploy c;
     c_deployMsg := Some d; c_body := c_body c;
     c_msgParams := c_msgParams c; c_blocknumber := c_blocknumber c;
     c_transactionHash := c_transactionHash c |}.

Definition set_method (e : ABIElementMarshaling) (m : option ABIMethod)
    (deploy : bool) (c : restCmd) : restCmd :=
  {| c_from := c_from c; c_addr := c_addr c; c_value := c_value c;
     c_abiLocation := c_abiLocation c; c_abiMethod := m;
     c_abiMethodElem := Some e; c_abiEvent := c_abiEvent c;
     c_abiEventElem := c_abiEventElem c; c_isDeploy := deploy;
     c_deployMsg := c_deployMsg c; c_body := c_body c;
     c_msgParams := c_msgParams c; c_blocknumber := c_blocknumber c;
     c_transactionHash := c_transactionHash c |}.

Definition set_event (e : ABIElementMarshaling) (ev : ABIEvent) (c : restCmd) : restCmd :=
  {| c_from := c_from c; c_addr := c_addr c; c_value := c_value c;
     c_abiLocation := c_abiLocation c; c_abiMethod := c_abiMethod c;
     c_abiMethodElem := c_abiMethodElem c; c_abiEvent := Some ev;
     c_abiEventElem := Some e; c_isDeploy := c_isDeploy c;
     c_deployMsg := c_deployMsg c; c_body := c_body c;
     c_msgParams := c_msgParams c; c_blocknumber := c_blocknumber c;
     c_transactionHash := c_transactionHash c |}.

Definition set_request (v : string) (b : gmap string JSON) (bn th : string)
    (c : restCmd) : restCmd :=
  {| c_from := c_from c; c_addr := c_addr c; c_value := v;
     c_abiLocation := c_abiLocation c; c_abiMethod := c_abiMethod c;
     c_abiMethodElem := c_abiMethodElem c; c_abiEvent := c_abiEvent c;
     c_abiEventElem := c_abiEventElem c; c_isDeploy := c_isDeploy c;
     c_deployMsg := c_deployMsg c; c_body := b;
     c_msgParams := c_msgParams c; c_blocknumber := bn;
     c_transactionHash := th |}.

Definition set_msgParams (ps : list JSON) (c : restCmd) : restCmd :=
  {| c_from := c_from c; c_addr := c_addr c; c_value := c_value c;
     c_abiLocation := c_abiLocation c; c_abiMethod := c_abiMethod c;
     c_abiMethodElem := c_abiMethodElem c; c_abiEvent := c_abiEvent c;
     c_abiEventElem := c_abiEventElem c; c_isDeploy := c_isDeploy c;
     c_deployMsg := c_deployMsg c; c_body := c_body c;
     c_msgParams := ps; c_blocknumber := c_blocknumber c;
     c_transactionHash := c_transactionHash c |}.

Section Resolver.
Context {U : UnicodeTables}.

(** The registry behind [r.cr], and the two conversions of
    [ethbind.API]. *)
Variable cr : ContractResolver.
Variable ABIElementMarshalingToABIMethod : ABIElementMarshaling -> error + ABIMethod.
Variable ABIElementMarshalingToABIEvent : ABIElementMarshaling -> error + ABIEvent.

(** The first branch of [resolveABI]: the location of the ABI from the
    prefix of the path. *)
Definition resolveLocation (req : Request) (params : Params) (c : restCmd)
    (addrParam : string) (validAddress : bool)
    : outcome (restCmd * ABILocation * bool) :=
  if HasPrefix (URL_Path req) "/gateways/" || HasPrefix (URL_Path req) "/g/" then
    Done (c, {| loc_ABIType := RemoteGateway;
                loc_Name := ByName params "gateway_lookup" |}, validAddress)
  else if HasPrefix (URL_Path req) "/instances/" || HasPrefix (URL_Path req) "/i/" then
    Done (c, {| loc_ABIType := RemoteInstance;
                loc_Name := ByName params "instance_lookup" |}, true)
  else
    let abiID := ByName params "abi" in
    if nonempty abiID then
      Done (c, {| loc_ABIType := LocalABI; loc_Name := abiID |}, validAddress)
    else
      c1 ← (if validAddress then Done c
            else match ResolveContractAddress cr addrParam with
                 | inl err => Rejected 404 err
                 | inr a => Done (set_addr a c)
                 end);
      match GetContractByAddress cr (c_addr c1) with
      | inl err => Rejected 404 err
      | inr info =>
          Done (c1, {| loc_ABIType := LocalABI; loc_Name := info_ABI info |}, true)
      end.

(** [rest2eth.resolveABI]: the command, the ABI and [validAddress]. *)
Definition resolveABI (req : Request) (params : Params) (c : restCmd)
    (addrParam : string) : outcome (restCmd * ABIMarshaling * bool) :=
  let c0 := set_addr (ToLower (TrimPrefix addrParam "0x")) c in
  let validAddress := addrCheck (c_addr c0) in
  '(c1, location, validAddress1) ← resolveLocation req params c0 addrParam validAddress;
  match GetABI cr location false with
  | inl err => Rejected 500 err
  | inr None => Rejected 404 (Errorf RESTGatewayInstanceNotFound [])
  | inr (Some deployMsg) =>
      match Contract deployMsg with
      | None => Rejected 404 (Errorf RESTGatewayInstanceNotFound [])
      | Some contract =>
          let contract1 := {| Headers_ID := Headers_ID contract;
                              Headers_ABIID := Headers_ID contract;
                              ABI := ABI contract |} in
          let c2 := set_abi location contract1 c1 in
          let c3 := if nonempty (Address deployMsg)
                    then set_addr (Address deployMsg) c2 else c2 in
          Done (c3, ABI contract1, validAddress1)
      end
  end.

(** [rest2eth.resolveMethod]. *)
Fixpoint resolveMethod (c : restCmd) (a : ABIMarshaling) (methodParam : string)
    : outcome restCmd :=
  match a with
  | [] => Done c
  | element :: rest =>
      if String.eqb (Type_ element) "function" && String.eqb (Name element) methodParam
      then match ABIElementMarshalingToABIMethod element with
           | inl err =>
               Rejected 400 (ErrorfWrap RESTGatewayMethodABIInvalid [methodParam] err)
           | inr m => Done (set_method element (Some m) (c_isDeploy c) c)
           end
      else resolveMethod c rest methodParam
  end.

(** The loop of [rest2eth.resolveConstructor]: the declared constructor,
    when there is one. *)
Fixpoint findConstructor (a : ABIMarshaling) : option ABIElementMarshaling :=
  match a with
  | [] => None
  | element :: rest =>
      if String.eqb (Type_ element) "constructor" then Some element
      else findConstructor rest
  end.

Definition defaultConstructor : ABIElementMarshaling :=
  {| Type_ := "constructor"; Name := ""; Inputs := []; Constant := false |}.

(** [rest2eth.resolveConstructor]. *)
Definition resolveConstructor (c : restCmd) (a : ABIMarshaling) : outcome restCmd :=
  match findConstructor a with
  | Some element =>
      match ABIElementMarshalingToABIMethod element with
      | inl err =>
          Rejected 400 (ErrorfWrap RESTGatewayMethodABIInvalid ["constructor"] err)
      | inr m => Done (set_method element (Some m) true c)
      end
  | None =>
      if c_isDeploy c then Done c
      else
        let m := match ABIElementMarshalingToABIMethod defaultConstructor with
                 | inl _ => None
                 | inr m => Some m
                 end in
        Done (set_method defaultConstructor m true c)
  end.

(** The loop of [rest2eth.resolveEvent]: the event definition, and
    whether the address was cleared on the way. *)
Fixpoint findEvent (a : ABIMarshaling) (methodParam methodParamLC addrParam : string)
    : option (ABIElementMarshaling * bool) :=
  match a with
  | [] => None
  | element :: rest =>
      if String.eqb (Type_ element) "event" then
        if String.eqb (Name element) methodParam then Some (element, false)
        else if String.eqb methodParamLC "subscribe"
                && String.eqb (Name element) addrParam
        then Some (element, true)
        else findEvent rest methodParam methodParamLC addrParam
      else findEvent rest methodParam methodParamLC addrParam
  end.

(** [rest2eth.resolveEvent]. *)
Definition resolveEvent (c : restCmd) (a : ABIMarshaling)
    (methodParam methodParamLC addrParam : string) : outcome restCmd :=
  match findEvent a methodParam methodParamLC addrParam with
  | None => Done c
  | Some (eventDef, cleared) =>
      let c1 := if cleared then set_addr "" c else c in
      match ABIElementMarshalingToABIEvent eventDef with
      | inl err =>
          Rejected 400 (ErrorfWrap RESTGatewayEventABIInvalid [Name eventDef] err)
      | inr ev => Done (set_event eventDef ev c1)
      end
  end.

(** The check of the 'to' address in [resolveParams]. *)
Definition checkToAddress (c : restCmd) (validAddress : bool) : outcome restCmd :=
  if nonempty (c_addr c) && negb validAddress then
    Rejected 404 (Errorf RESTGatewayInvalidToAddress [])
  else if nonempty (c_addr c) then Done (set_addr ("0x" +:+ c_addr c) c)
  else Done c.

(** The check of the 'from' parameter in [resolveParams]. *)
Definition checkFromAddress (req : Request) (c : restCmd) : outcome restCmd :=
  let From := getFlyParam req "from" in
  let fromNo0xPrefix := ToLower (TrimPrefix From "0x") in
  if nonempty fromNo0xPrefix then
    if addrCheck fromNo0xPrefix then Done (set_from ("0x" +:+ fromNo0xPrefix) c)
    else if bool_decide (IsHDWalletRequest fromNo0xPrefix ≠ None)
    then Done (set_from fromNo0xPrefix c)
    else Rejected 404 (Errorf RESTGatewayInvalidFromAddress [])
  else Done c.

(** The name under which input [i] of a method is looked up. *)
Definition argNameOf (i : nat) (name : string) : string :=
  if nonempty name then name
  else if (i =? 0)%nat then "input" else "input" +:+ Itoa i.

(** The loop of [resolveParams] over the inputs of the method, from
    input [i] on. *)
Fixpoint collectParams (req : Request) (c : restCmd) (methodName : string)
    (i : nat) (inputs : list string) : outcome (list JSON) :=
  match inputs with
  | [] => Done []
  | name :: rest =>
      let argName := argNameOf i name in
      v ← match c_body c !! argName with
          | Some bv => Done bv
          | None =>
              match default [] (Form req !! argName) with
              | v0 :: _ => Done (JString v0)
              | [] => Rejected 400 (Errorf RESTGatewayMissingParameter
                                           [argName; methodName])
              end
          end;
      vs ← collectParams req c methodName (S i) rest;
      Done (v :: vs)
  end.

(** [resolveParams], first part: the ABI, and then the method, the event
    or the constructor that the request names; with [validAddress]. *)
Definition resolveElement (req : Request) (params : Params) : outcome (restCmd * bool) :=
  let addrParam := ByName params "address" in
  '(c1, a, validAddress) ← resolveABI req params restCmd0 addrParam;
  let methodParam := ByName params "method" in
  let methodParamLC := ToLower methodParam in
  c2 ← (if nonempty methodParam then resolveMethod c1 a methodParam else Done c1);
  c3 ← (if bool_decide (c_abiMethod c2 = None) && nonempty methodParam
        then resolveEvent c2 a methodParam methodParamLC addrParam else Done c2);
  c4 ← (if negb (nonempty methodParam) && bool_decide (c_abiMethod c3 = None)
           && bool_decide (c_abiEvent c3 = None)
        then resolveConstructor c3 a else Done c3);
  if bool_decide (c_abiMethod c4 = None) && bool_decide (c_abiEvent c4 = None) then
    if String.eqb methodParamLC "subscribe"
    then Rejected 404 (Errorf RESTGatewayEventNotDeclared [methodParam])
    else Rejected 404 (Errorf RESTGatewayMethodNotDeclared
                              [QueryEscape methodParam; c_addr c4])
  else Done (c4, validAddress).

(** [resolveParams], last part: the value, the body, the block number and
    the transaction hash, and the inputs of the method. *)
Definition resolveInputs (req : Request) (c6 : restCmd) : outcome restCmd :=
  match YAMLorJSONPayload req with
  | inl err => Rejected 400 err
  | inr b =>
      let c7 := set_request (getFlyParam req "ethvalue") b
                  (getFlyParam req "blocknumber")
                  (getFlyParam req "transaction") c6 in
      if bool_decide (c_abiEvent c7 ≠ None) || nonempty (c_transactionHash c7)
      then Done c7
      else
        match c_abiMethod c7 with
        | None => Panic
        | Some m =>
            ps ← collectParams req c7 (method_Name m) 0 (method_Inputs m);
            Done (set_msgParams ps c7)
        end
  end.

(** [rest2eth.resolveParams]. *)
Definition resolveParams (req : Request) (params : Params) : outcome restCmd :=
  '(c4, validAddress) ← resolveElement req params;
  c5 ← checkToAddress c4 validAddress;
  c6 ← checkFromAddress req c5;
  resolveInputs req c6.

(** A 'from' parameter that is given and is neither an address nor an
    HD-wallet reference. *)
Definition invalidFrom (req : Request) : bool :=
  let fromNo0xPrefix := ToLower (TrimPrefix (getFlyParam req "from") "0x") in
  nonempty fromNo0xPrefix && negb (addrCheck fromNo0xPrefix)
  && bool_decide (IsHDWalletRequest fromNo0xPrefix = None).

(** What the client receives when [restHandler] stops at
    [resolveParams]: the reply that [restErrReply] wrote. *)
Definition rejection {A} (o : outcome A) : option Response :=
  match o with
  | Rejected s e => Some {| status := s; body := BodyError e |}
  | _ => None
  end.

End Resolver.

End contractgateway.

(** ** internal/contracts/remoteregistry.go *)

Module contracts.
Import gostrings.
Import contractgateway.

Definition defaultIDProp := "id".
Definition defaultNameProp := "name".
Definition defaultABIProp := "abi".
Definition defaultBytecodeProp := "bytecode".
Definition defaultDevdocProp := "devdoc".
Definition defaultDeployableProp := "deployable".
Definition defaultAddressProp := "address".

(** [messages.DeployContract] as the registry fills it: the ID and the
    context flag [remoteRegistryContextKey] of the headers, the ABI, the
    devdoc and the bytecode. *)
Record DeployContract := {
  Headers_ID : string;
  Headers_Context_remoteRegistry : bool;
  ABI : ABIMarshaling;
  DevDoc : string;
  Compiled : string;
}.

Record deployContractWithAddress := {
  DeployContract_ : DeployContract;
  Address : string;
}.

Record RemoteRegistryPropNamesConf := {
  prop_ID : string;
  prop_Name : string;
  prop_ABI : string;
  prop_Bytecode : string;
  prop_Devdoc : string;
  prop_Deployable : string;
  prop_Address : string;
}.

Record RemoteRegistryConf := {
  CacheDB : string;
  GatewayURLPrefix : string;
  InstanceURLPrefix : string;
  PropNames : RemoteRegistryPropNamesConf;
}.

Definition orDefault (s d : string) : string := if String.eqb s "" then d else s.

Definition withSlash (prefix : string) : string :=
  if nonempty prefix && negb (HasSuffix prefix "/") then prefix +:+ "/" else prefix.

(** The configuration as [NewRemoteRegistry] leaves it. *)
Definition normalize (conf : RemoteRegistryConf) : RemoteRegistryConf :=
  let p := PropNames conf in
  {| CacheDB := CacheDB conf;
     GatewayURLPrefix := withSlash (GatewayURLPrefix conf);
     InstanceURLPrefix := withSlash (InstanceURLPrefix conf);
     PropNames :=
       {| prop_ID := orDefault (prop_ID p) defaultIDProp;
          prop_Name := orDefault (prop_Name p) defaultNameProp;
          prop_ABI := orDefault (prop_ABI p) defaultABIProp;
          prop_Bytecode := orDefault (prop_Bytecode p) defaultBytecodeProp;
          prop_Devdoc := orDefault (prop_Devdoc p) defaultDevdocProp;
          prop_Deployable := orDefault (prop_Deployable p) defaultDeployableProp;
          prop_Address := orDefault (prop_Address p) defaultAddressProp |} |}.

(** What the registry does to the world outside, in order. *)
Inductive event :=
| HTTP (method url : string)
| CacheGet (cacheKey : string)
| CachePut (cacheKey : string) (b : string).

(** The collaborators of the registry. *)
Class Collaborators := {
  (** [kvstore.KVStore]: a store, its [Get] and [Put], and
      [kvstore.NewLDBKeyValueStore] *)
  KV : Type;
  kv_Get : KV -> string -> error + string;
  kv_Put : KV -> string -> string -> KV * option error;
  NewLDBKeyValueStore : string -> error + KV;
  (** [utils.HTTPRequester]: the requester with the servers behind it,
      [DoRequest] (method, URL, body) and [GetResponseString] *)
  HR : Type;
  JSONRes : Type;
  DoRequest : HR -> string -> string -> option (gmap string string)
              -> HR * (option JSONRes * option error);
  GetResponseString : JSONRes -> string -> bool -> error + string;
  (** [encoding/json]: unmarshalling the ABI, and the two directions of
      the cached message *)
  unmarshalABI : string -> option ABIMarshaling;
  marshalMsg : deployContractWithAddress -> string;
  unmarshalMsg : string -> option deployContractWithAddress;
}.

Section Registry.
Context {U : UnicodeTables} {C : Collaborators}.

(** [remoteRegistry], with the trace of what it did. *)
Record remoteRegistry := {
  conf : RemoteRegistryConf;
  hr : HR;
  db : option KV;
  trace : list event;
}.

Definition NewRemoteRegistry (conf0 : RemoteRegistryConf) (hr0 : HR) : remoteRegistry :=
  {| conf := normalize conf0; hr := hr0; db := None; trace := [] |}.

(** [remoteRegistry.init]. *)
Definition init (rr : remoteRegistry) : remoteRegistry * option error :=
  if nonempty (CacheDB (conf rr)) then
    match NewLDBKeyValueStore (CacheDB (conf rr)) with
    | inl err => (rr, Some (ErrorfWrap RemoteRegistryCacheInit [] err))
    | inr s => ({| conf := conf rr; hr := hr rr; db := Some s; trace := trace rr |}, None)
    end
  else (rr, None).

Definition record (e : event) (rr : remoteRegistry) : remoteRegistry :=
  {| conf := conf rr; hr := hr rr; db := db rr; trace := trace rr ++ [e] |}.

(** [remoteRegistry.loadFactoryFromCacheDB]. *)
Definition loadFactoryFromCacheDB (rr : remoteRegistry) (cacheKey : string)
    : remoteRegistry * option deployContractWithAddress :=
  match db rr with
  | None => (rr, None)
  | Some s =>
      let rr1 := record (CacheGet cacheKey) rr in
      match kv_Get s cacheKey with
      | inl _ => (rr1, None)
      | inr b => (rr1, unmarshalMsg b)
      end
  end.

(** [remoteRegistry.storeFactoryToCacheDB]. *)
Definition storeFactoryToCacheDB (rr : remoteRegistry) (cacheKey : string)
    (msg : deployContractWithAddress) : remoteRegistry :=
  match db rr with
  | None => rr
  | Some s =>
      let b := marshalMsg msg in
      let '(s', _) := kv_Put s cacheKey b in
      {| conf := conf rr; hr := hr rr; db := Some s';
         trace := trace rr ++ [CachePut cacheKey b] |}
  end.

(** The part of [loadFactoryFromURL] that reads the response. *)
Definition processResponse (rr : remoteRegistry) (jsonRes : JSONRes)
    : error + deployContractWithAddress :=
  let p := PropNames (conf rr) in
  match GetResponseString jsonRes (prop_ID p) false with
  | inl err => inl err
  | inr idString =>
  match GetResponseString jsonRes (prop_ABI p) false with
  | inl err => inl err
  | inr abiString =>
  match unmarshalABI abiString with
  | None => inl (Errorf RemoteRegistryLookupGenericProcessingFailed [])
  | Some abi =>
  match GetResponseString jsonRes (prop_Devdoc p) true with
  | inl err => inl err
  | inr devdoc =>
  match GetResponseString jsonRes (prop_Bytecode p) false with
  | inl err => inl err
  | inr bytecodeStr =>
  match DecodeString (TrimPrefix bytecodeStr "0x") with
  | None => inl (Errorf RemoteRegistryLookupGenericProcessingFailed [])
  | Some bytecode =>
      let addr := match GetResponseString jsonRes (prop_Address p) false with
                  | inl _ => ""
                  | inr a => a
                  end in
      inr {| DeployContract_ :=
               {| Headers_ID := idString;
                  Headers_Context_remoteRegistry := true;
                  ABI := abi; DevDoc := devdoc; Compiled := bytecode |};
             Address := ToLower (TrimPrefix addr "0x") |}
  end end end end end end.

(** [remoteRegistry.loadFactoryFromURL], from the request on: the GET,
    the reading of the response and, on success, the write to the cache. *)
Definition fetch (rr1 : remoteRegistry) (baseURL ns lookupStr : string)
    : remoteRegistry * (option deployContractWithAddress * option error) :=
  let safeLookupStr := QueryEscape lookupStr in
  let queryURL := baseURL +:+ safeLookupStr in
  let '(hr', (jsonRes, err)) := DoRequest (hr rr1) "GET" queryURL None in
  let rr2 := {| conf := conf rr1; hr := hr'; db := db rr1;
                trace := trace rr1 ++ [HTTP "GET" queryURL] |} in
  match err, jsonRes with
  | Some e, _ => (rr2, (None, Some e))
  | None, None => (rr2, (None, None))
  | None, Some j =>
      match processResponse rr1 j with
      | inl e => (rr2, (None, Some e))
      | inr msg =>
          (storeFactoryToCacheDB rr2 (ns +:+ "/" +:+ safeLookupStr) msg,
           (Some msg, None))
      end
  end.

(** [remoteRegistry.loadFactoryFromURL]. *)
Definition loadFactoryFromURL (rr : remoteRegistry)
    (baseURL ns lookupStr : string) (refresh : bool)
    : remoteRegistry * (option deployContractWithAddress * option error) :=
  let safeLookupStr := QueryEscape lookupStr in
  let '(rr1, cached) :=
    if refresh then (rr, None)
    else loadFactoryFromCacheDB rr (ns +:+ "/" +:+ safeLookupStr) in
  match cached with
  | Some msg => (rr1, (Some msg, None))
  | None => fetch rr1 baseURL ns lookupStr
  end.

(** [remoteRegistry.loadFactoryForGateway]. *)
Definition loadFactoryForGateway (rr : remoteRegistry) (lookupStr : string)
    (refresh : bool) : remoteRegistry * (option DeployContract * option error) :=
  if String.eqb (GatewayURLPrefix (conf rr)) "" then (rr, (None, None))
  else
    let '(rr', (msg, err)) :=
      loadFactoryFromURL rr (GatewayURLPrefix (conf rr)) "gateways" lookupStr refresh in
    match msg with
    | Some m => (rr', (Some (DeployContract_ m), err))
    | None => (rr', (None, err))
    end.

(** [remoteRegistry.loadFactoryForInstance]. *)
Definition loadFactoryForInstance (rr : remoteRegistry) (lookupStr : string)
    (refresh : bool)
    : remoteRegistry * (option deployContractWithAddress * option error) :=
  if String.eqb (InstanceURLPrefix (conf rr)) "" then (rr, (None, None))
  else loadFactoryFromURL rr (InstanceURLPrefix (conf rr)) "instances" lookupStr refresh.

(** [remoteRegistry.registerInstance]. *)
Definition registerInstance (rr : remoteRegistry) (lookupStr address : string)
    : remoteRegistry * option error :=
  if String.eqb (InstanceURLPrefix (conf rr)) "" then
    (rr, Some (Errorf RemoteRegistryNotConfigured []))
  else
    let safeLookupStr := QueryEscape lookupStr in
    let requestURL := TrimSuffix (InstanceURLPrefix (conf rr)) "/" in
    let bodyMap : gmap string string :=
      <[prop_Address (PropNames (conf rr)) := address]>
        (<[prop_Name (PropNames (conf rr)) := safeLookupStr]> ∅) in
    let '(hr', (_, err)) := DoRequest (hr rr) "POST" requestURL (Some bodyMap) in
    let rr' := {| conf := conf rr; hr := hr'; db := db rr;
                  trace := trace rr ++ [HTTP "POST" requestURL] |} in
    match err with
    | Some e => (rr', Some (ErrorfWrap RemoteRegistryRegistrationFailed [] e))
    | None => (rr', None)
    end.

End Registry.

End contracts.

(** ** internal/contractregistry: the contract store in front of the
       registry *)

Module contractregistry.
Import contractgateway.

Section Store.
Context {U : gostrings.UnicodeTables} {C : contracts.Collaborators}.

Definition ofRegistry (d : contracts.DeployContract) : DeployContract :=
  {| Headers_ID := contracts.Headers_ID d; Headers_ABIID := "";
     ABI := contracts.ABI d |}.

(** Modelled from the spec: contractstore.go is not among the sources.
    [GetABI(location, refresh)] routes the [RemoteGateway] and
    [RemoteInstance] variants to the remote registry and passes the
    answer through ([refresh] passed on); a gateway has no address.  The
    local variant, with its index and its decode cache, is the
    parameter [local]. *)
Definition GetABI (rr : contracts.remoteRegistry)
    (local : string -> error + option DeployContractWithAddress)
    (location : ABILocation) (refresh : bool)
    : contracts.remoteRegistry * (error + option DeployContractWithAddress) :=
  match loc_ABIType location with
  | RemoteGateway =>
      let '(rr', (msg, err)) :=
        contracts.loadFactoryForGateway rr (loc_Name location) refresh in
      match err, msg with
      | Some e, _ => (rr', inl e)
      | None, None => (rr', inr None)
      | None, Some d =>
          (rr', inr (Some {| Contract := Some (ofRegistry d); Address := "" |}))
      end
  | RemoteInstance =>
      let '(rr', (msg, err)) :=
        contracts.loadFactoryForInstance rr (loc_Name location) refresh in
      match err, msg with
      | Some e, _ => (rr', inl e)
      | None, None => (rr', inr None)
      | None, Some m =>
          (rr', inr (Some {| Contract := Some (ofRegistry (contracts.DeployContract_ m));
                             Address := contracts.Address m |}))
      end
  | LocalABI => (rr, local (loc_Name location))
  end.

(** The resolver that one request sees, over a store whose registry is
    [rr]. *)
Definition resolverOver (rr : contracts.remoteRegistry)
    (local : string -> error + option DeployContractWithAddress)
    (resolveName : string -> error + string)
    (byAddress : string -> error + ContractInfo) : ContractResolver :=
  {| ResolveContractAddress := resolveName;
     GetContractByAddress := byAddress;
     contractgateway.GetABI :=
       fun location refresh => snd (GetABI rr local location refresh) |}.

End Store.

End contractregistry.

(** ** internal/eth: sending a transaction and calling a method *)

Module eth.
Import gostrings.

(** Modelled from the spec: txn.go is not among the sources.  Except for
    the stub client, which is the one of txn_test.go, the definitions of
    this module follow sections 3, 4.1 and 4.3 of the design document, and
    what the tests of txn_test.go record of the calls made.

    In this package an [error] is the text it carries. *)
Definition error : Type := string.

(** How a function of the package ends: with a value, with an error, or
    in a run-time panic. *)
Inductive result (A : Type) :=
| Ok (a : A)
| Err (e : error)
| Panicked.
Arguments Ok {A} _.
Arguments Err {A} _.
Arguments Panicked {A}.

(** Modelled from the spec: [SendTXArgs], the JSON object handed to the
    node, with the fields that the tests read back from the captured
    arguments. *)
Record SendTXArgs := {
  a_nonce : option N;
  a_from : string;
  a_to : string;
  a_gas : option N;
  a_gasPrice : N;
  a_value : N;
  a_data : string;
  a_privateFrom : string;
  a_privateFor : list string;
  a_privacyGroupId : string;
}.

(** An argument of an RPC call. *)
Inductive arg :=
| ArgTx (a : SendTXArgs)
| ArgString (s : string).

(** The interface [RPCClient]: [CallContext] with the method and its
    arguments; the answer is what was stored through the [result] pointer
    ([None] when it was left alone) and the error. *)
Class RPCClient (R : Type) := {
  CallContext : R -> string -> list arg -> R * (option string * option error);
}.

(** The stub of txn_test.go. *)
Record testRPCClient := {
  mockError : option error;
  capturedMethod : string;
  capturedArgs : list arg;
  mockError2 : option error;
  capturedMethod2 : string;
  capturedArgs2 : list arg;
  resultWrangler : option string;
}.

#[export] Instance testRPCClient_CallContext : RPCClient testRPCClient := {
  CallContext r method args :=
    let '(r', retErr) :=
      if String.eqb (capturedMethod r) "" then
        ({| mockError := mockError r; capturedMethod := method;
            capturedArgs := args; mockError2 := mockError2 r;
            capturedMethod2 := capturedMethod2 r;
            capturedArgs2 := capturedArgs2 r;
            resultWrangler := resultWrangler r |}, mockError r)
      else
        ({| mockError := mockError r; capturedMethod := capturedMethod r;
            capturedArgs := capturedArgs r; mockError2 := mockError2 r;
            capturedMethod2 := method; capturedArgs2 := args;
            resultWrangler := resultWrangler r |}, mockError2 r) in
    (r', (resultWrangler r, retErr))
}.

(** The zero value [testRPCClient{}]. *)
Definition testRPCClient0 : testRPCClient :=
  {| mockError := None; capturedMethod := ""; capturedArgs := [];
     mockError2 := None; capturedMethod2 := ""; capturedArgs2 := [];
     resultWrangler := None |}.

(** Modelled from the spec: the transaction as it is encoded for the
    signer. *)
Record EthTX := {
  e_nonce : N;
  e_to : option string;
  e_gas : N;
  e_gasPrice : N;
  e_value : N;
  e_data : string;
}.

(** Modelled from the spec: the interface [TXSigner] is not among the
    sources.  A signer has a type name, may or may not support private
    transactions, and produces [(signed, from)] from the encoded
    transaction, or an error. *)
Record TXSigner := {
  signer_Type : string;
  supportsPrivate : bool;
  Sign : EthTX -> error + (string * string);
}.

(** Modelled from the spec: [Txn], the output of the builder (section 3):
    nonce (optional), from/to, gas (absent when not supplied), gasPrice,
    value, data bytes, signer reference, privacy fields, and the hash of
    the submitted transaction. *)
Record Txn := {
  NodeAssignNonce : bool;
  Nonce : N;
  From : string;
  To : option string;
  Gas : option N;
  GasPrice : N;
  Value : N;
  Data : string;
  Signer : option TXSigner;
  PrivateFrom : string;
  PrivateFor : list string;
  PrivacyGroupID : string;
  Hash : string;
}.

Definition emptyb {A} (l : list A) : bool :=
  match l with [] => true | _ => false end.

(** Modelled from the spec: a transaction is private when it names a
    privacy group or private-for parties. *)
Definition isPrivate (tx : Txn) : bool :=
  nonempty (PrivacyGroupID tx) || negb (emptyb (PrivateFor tx)).

(** Modelled from the spec: the object sent with [eth_estimateGas] and
    the send methods; the privacy fields go with it, as the tests read
    them back. *)
Definition sendArgs (tx : Txn) (gas : N) : SendTXArgs :=
  {| a_nonce := if NodeAssignNonce tx then None else Some (Nonce tx);
     a_from := From tx;
     a_to := default "" (To tx);
     a_gas := Some gas;
     a_gasPrice := GasPrice tx;
     a_value := Value tx;
     a_data := Data tx;
     a_privateFrom := PrivateFrom tx;
     a_privateFor := PrivateFor tx;
     a_privacyGroupId := PrivacyGroupID tx |}.

(** Modelled from the spec: the object sent with [eth_call]; no nonce
    and no gas, as TestCallMethod reads it back. *)
Definition callArgs (tx : Txn) : SendTXArgs :=
  {| a_nonce := None;
     a_from := From tx;
     a_to := default "" (To tx);
     a_gas := None;
     a_gasPrice := GasPrice tx;
     a_value := Value tx;
     a_data := Data tx;
     a_privateFrom := PrivateFrom tx;
     a_privateFor := PrivateFor tx;
     a_privacyGroupId := PrivacyGroupID tx |}.

Definition ethTX (tx : Txn) (gas : N) : EthTX :=
  {| e_nonce := Nonce tx; e_to := To tx; e_gas := gas;
     e_gasPrice := GasPrice tx; e_value := Value tx; e_data := Data tx |}.

(** *** Revert reasons *)

(** Modelled from the spec: the selector of [Error(string)], as it opens
    the hex payload. *)
Definition revertSelector : string := "0x08c379a0".

Definition revertDecodeFailed : error :=
  "EVM reverted. Failed to decode error message".

(** A big-endian unsigned integer. *)
Definition be_to_N (b : string) : N :=
  fold_left (fun acc c => (acc * 256 + N_of_ascii c)%N) (list_ascii_of_string b) 0%N.

(** The [k] low bytes of [n], most significant first; a 32-byte word of
    the ABI encoding; and the ABI encoding of a [string] as the only
    value: the offset 32, the length, and the bytes padded with zeros to a
    multiple of 32. *)
Fixpoint be_bytes (k : nat) (n : N) : string :=
  match k with
  | O => EmptyString
  | S k' => be_bytes k' (n / 256)%N +:+ String (ascii_of_N (n mod 256)%N) EmptyString
  end.

Definition word32 (n : N) : string := be_bytes 32 n.

Fixpoint zeros (k : nat) : string :=
  match k with
  | O => EmptyString
  | S k' => String zero (zeros k')
  end.

Definition abiEncodeString (text : string) : string :=
  word32 32 +:+ word32 (N.of_nat (String.length text)) +:+ text
  +:+ zeros ((32 - String.length text mod 32) mod 32).

(** Modelled from the spec: the revert decoding of txn.go is not among
    the sources.  A payload that begins with the selector carries an
    ABI-encoded [string]: after the selector, a 32-byte offset word, a
    32-byte length word, and the bytes of the text.  A payload that is not
    hex, or is too short to hold the two words, is malformed; a length
    beyond the bytes that follow is clamped to them.  [Ok] is the decoded
    text; slices are taken as Go takes them. *)
Definition decodeRevert (hexString : string) : result string :=
  match DecodeString (TrimPrefix hexString revertSelector) with
  | None => Err revertDecodeFailed
  | Some data =>
      if (String.length data <? 64)%nat then Err revertDecodeFailed
      else
        match slice data 32 64 with
        | None => Panicked
        | Some lenWord =>
            let strLen := be_to_N lenWord in
            let avail := N.of_nat (String.length data - 64) in
            let n := if (avail <? strLen)%N then avail else strLen in
            match slice data 64 (64 + N.to_nat n) with
            | None => Panicked
            | Some text => Ok text
            end
        end
  end.

(** *** Block tags *)

Definition is_hexdigit (c : ascii) : bool :=
  is_digit c || in_range "a" "f" c || in_range "A" "F" c.

(** Modelled from the spec: a hex block number is [0x] and at least one
    hex digit. *)
Definition isHexNumber (s : string) : bool :=
  HasPrefix s "0x" && nonempty (TrimPrefix s "0x")
  && all_chars is_hexdigit (TrimPrefix s "0x").

(** Modelled from the spec: a decimal block number is at least one
    digit, and digits only. *)
Definition parseDecimal (s : string) : option N :=
  option_map N.of_uint (DecimalString.NilZero.uint_of_string s).

Definition is_lower_hexdigit (c : ascii) : bool := is_digit c || in_range "a" "f" c.

(** The number that a run of hex digits writes. *)
Definition parseHex (h : string) : option N :=
  option_map N.of_hex_uint (HexadecimalString.NilZero.uint_of_string h).

(** Modelled from the spec: lowercase 0x-hex, without leading zeros. *)
Definition encodeBig (n : N) : string :=
  "0x" +:+ HexadecimalString.NilZero.string_of_uint (N.to_hex_uint n).

Definition invalidBlockNumber : error :=
  "Invalid blocknumber. Failed to parse into big integer".

(** Modelled from the spec: the block tag handling of [CallMethod]
    (section 4.3): the tag is "", "latest", "pending", "earliest", or a
    decimal or hex block number; the empty tag defaults to "latest", a
    decimal number is normalized to 0x-hex, anything else is an invalid
    block number. *)
Definition normalizeBlockTag (blocknumber : string) : error + string :=
  if String.eqb blocknumber "" then inr "latest"
  else if String.eqb blocknumber "latest" || String.eqb blocknumber "pending"
          || String.eqb blocknumber "earliest" || isHexNumber blocknumber
  then inr blocknumber
  else match parseDecimal blocknumber with
       | Some n => inr (encodeBig n)
       | None => inl invalidBlockNumber
       end.

(** *** Calls and sends *)

Section Sender.
Context {R : Type} {rpcClient : RPCClient R}.

(** A client together with the calls made on it, in order. *)
Record session := {
  client : R;
  calls : list (string * list arg);
}.

Definition invoke (s : session) (method : string) (args : list arg)
    : session * (option string * option error) :=
  let '(r', ans) := CallContext (client s) method args in
  ({| client := r'; calls := calls s ++ [(method, args)] |}, ans).

(** Modelled from the spec: [Txn.Call] is not among the sources.  It
    performs [eth_call] at a block tag; a failure of the RPC is "Call
    failed: <reason>"; a payload that begins with the revert selector
    surfaces the decoded reason as the error; any other payload is
    returned as it came. *)
Definition Call (tx : Txn) (s : session) (blocknumber : string)
    : session * result string :=
  let '(s', (res, err)) :=
    invoke s "eth_call" [ArgTx (callArgs tx); ArgString blocknumber] in
  match err with
  | Some e => (s', Err ("Call failed: " +:+ e))
  | None =>
      let hexString := default "" res in
      if HasPrefix hexString revertSelector then
        (s', match decodeRevert hexString with
             | Ok text => Err text
             | Err e => Err e
             | Panicked => Panicked
             end)
      else (s', Ok hexString)
  end.

(** Modelled from the spec: [CallMethod] is not among the sources.
    [built] is the outcome of marshalling the parameters into a
    transaction; the block tag is normalized and [eth_call] performed.
    The payload is returned as it came: decoding it through the output
    ABI is left out. *)
Definition CallMethod (s : session) (built : error + Txn) (blocknumber : string)
    : session * result string :=
  match built with
  | inl e => (s, Err e)
  | inr tx =>
      match normalizeBlockTag blocknumber with
      | inl e => (s, Err e)
      | inr callOption => Call tx s callOption
      end
  end.

(** Modelled from the spec: the gas that [eth_estimateGas] stored
    through the result pointer (0 when it stored nothing, as with the
    stub client). *)
Definition estimatedGas (res : option string) : N :=
  match res with
  | None => 0%N
  | Some h => default 0%N (parseHex (TrimPrefix h "0x"))
  end.

(** Modelled from the spec: step 1 of [Send] (section 4.3), once it is
    decided that the gas is to be estimated: call [eth_estimateGas]; if
    it fails, re-issue the transaction as an [eth_call]; if the call
    fails too its error is surfaced, else the estimation error is. *)
Definition calculateGas (tx : Txn) (s : session) : session * result N :=
  let '(s1, (res, err)) :=
    invoke s "eth_estimateGas" [ArgTx (sendArgs tx 0)] in
  match err with
  | None => (s1, Ok (estimatedGas res))
  | Some estErr =>
      let '(s2, r) := Call tx s1 "latest" in
      match r with
      | Ok _ => (s2, Err ("Failed to calculate gas for transaction: " +:+ estErr))
      | Err e => (s2, Err e)
      | Panicked => (s2, Panicked)
      end
  end.

Definition sent (tx : Txn) (from hash : string) : Txn :=
  {| NodeAssignNonce := NodeAssignNonce tx; Nonce := Nonce tx; From := from;
     To := To tx; Gas := Gas tx; GasPrice := GasPrice tx; Value := Value tx;
     Data := Data tx; Signer := Signer tx; PrivateFrom := PrivateFrom tx;
     PrivateFor := PrivateFor tx; PrivacyGroupID := PrivacyGroupID tx;
     Hash := hash |}.

Definition submit (tx : Txn) (from : string) (s : session) (method : string)
    (args : list arg) : session * Txn * result unit :=
  let '(s', (res, err)) := invoke s method args in
  match err with
  | Some e => (s', tx, Err e)
  | None => (s', sent tx from (default "" res), Ok tt)
  end.

(** Modelled from the spec: step 2 of [Send]: with a signer, a private
    transaction is rejected if the signer does not support it; else the
    encoded transaction is signed and submitted raw. *)
Definition sendSigned (signer : TXSigner) (tx : Txn) (gas : N) (s : session)
    : session * Txn * result unit :=
  if isPrivate tx && negb (supportsPrivate signer) then
    (s, tx, Err ("Signing with " +:+ signer_Type signer
                 +:+ " is not currently supported with private transactions"))
  else
    match Sign signer (ethTX tx gas) with
    | inl e => (s, tx, Err e)
    | inr (signed, from) =>
        submit tx from s "eth_sendRawTransaction"
               [ArgString ("0x" +:+ EncodeToString signed)]
    end.

Definition privateFromRequired : error :=
  "private-from is required when submitting private transactions via Orion".

(** Modelled from the spec: step 3 of [Send]: without a signer, the RPC
    method is chosen by the privacy fields. *)
Definition sendUnsigned (tx : Txn) (gas : N) (s : session)
    : session * Txn * result unit :=
  let args := sendArgs tx gas in
  if nonempty (PrivacyGroupID tx) then
    if nonempty (PrivateFrom tx)
    then submit tx (From tx) s "eea_sendTransaction" [ArgTx args]
    else (s, tx, Err privateFromRequired)
  else if negb (emptyb (PrivateFor tx))
  then submit tx (From tx) s "eth_sendTransaction" [ArgTx args]
  else submit tx (From tx) s "eth_sendTransaction" [ArgTx args].

(** Modelled from the spec: the guard of step 1 of [Send], as the tests
    record it (see [Send]): the gas that was supplied, or else the
    estimate. *)
Definition obtainGas (tx : Txn) (s : session) : session * result N :=
  match Gas tx with
  | Some g => (s, Ok g)
  | None => calculateGas tx s
  end.

(** Modelled from the spec: [Txn.Send] is not among the sources; the
    three steps are those of section 4.3.  The guard of step 1 is the
    one that the tests of txn_test.go record: with a signer and no gas,
    [TestSendWithTXSignerOK] and [TestSendWithTXSignerContractOK]
    capture [eth_estimateGas] and then [eth_sendRawTransaction]; with a
    signer and a gas, [TestNewContractWithTXSignerOK] captures
    [eth_sendRawTransaction] alone.  So the gas is estimated whenever
    none was supplied. *)
Definition Send (tx : Txn) (s : session) : session * Txn * result unit :=
  let '(s1, g) := obtainGas tx s in
  match g with
  | Err e => (s1, tx, Err e)
  | Panicked => (s1, tx, Panicked)
  | Ok gas =>
      match Signer tx with
      | Some signer => sendSigned signer tx gas s1
      | None => sendUnsigned tx gas s1
      end
  end.

(** The guard of step 1 in the words of the design document: gas not
    supplied and no offline signer. *)
Definition estimates_by_the_document (tx : Txn) : bool :=
  bool_decide (Gas tx = None) && negb (bool_decide (is_Some (Signer tx))).

(** The methods called in a session, in order. *)
Definition methods (s : session) : list string := (calls s).*1.

Definition is_send_method (m : string) : bool :=
  String.eqb m "eth_sendTransaction" || String.eqb m "eea_sendTransaction"
  || String.eqb m "eth_sendRawTransaction".

Definition start (r : R) : session := {| client := r; calls := [] |}.

End Sender.

End eth.

(** ** Scenarios: the fixtures of the tests and of the design document *)

Module scenarios.
Import webhooksdirect.

(** The fixtures are ASCII text, which [strings.ToLower] lowers without
    the Unicode tables; for them the tables are left as the identity. *)
#[export] Instance fixtureTables : gostrings.UnicodeTables :=
  {| gostrings.Map_unicode_ToLower := fun s => s |}.

(** Scenario S5 of the design document: a cap of one, two dispatches. *)
Definition conf_S5 : WebhooksDirectConf :=
  {| MaxInFlight := 1; MaxTXWaitTime := 30; RPC_URL := "http://localhost:8545" |}.

Definition headers_S5 (m : string) : option CommonHeaders :=
  Some {| ID := m; MsgType := "SendTransaction" |}.

Definition ops_S5 : list (op string unit) :=
  [OpSend string unit 0 "key" "msg1" "msg1" true].

(** *** The gateway in front of a store that holds the simplestorage ABI *)

Import contractgateway.

Definition simplestorageABI : ABIMarshaling :=
  [ {| Type_ := "constructor"; Name := "";
       Inputs := [{| arg_Name := "initVal"; arg_Type := "uint256" |}];
       Constant := false |};
    {| Type_ := "function"; Name := "set";
       Inputs := [{| arg_Name := "x"; arg_Type := "uint256" |}];
       Constant := false |};
    {| Type_ := "function"; Name := "get"; Inputs := []; Constant := true |} ].

(** A stub of the store: one ABI under every local name, no registered
    names, no registered instances. *)
Definition storeStub : ContractResolver :=
  {| ResolveContractAddress := fun name => inl (External "stub: name not registered");
     GetContractByAddress := fun a => inl (External "stub: no such instance");
     GetABI := fun location refresh =>
       inr (Some {| Contract := Some {| Headers_ID := "abi1"; Headers_ABIID := "";
                                        ABI := simplestorageABI |};
                    Address := "" |}) |}.

Definition toMethodStub (e : ABIElementMarshaling) : error + ABIMethod :=
  inr {| method_Name := Name e; method_Inputs := map arg_Name (Inputs e);
         IsConstant := Constant e |}.

Definition toEventStub (e : ABIElementMarshaling) : error + ABIEvent :=
  inr {| event_Name := Name e |}.

Definition flyParams (from : string) (name : string) : string :=
  if String.eqb name "from" then from else "".

(** [POST /abis/abi1/<address>/set] with the body [{"x": "1"}]. *)
Definition postSet (from : string) : Request :=
  {| Method := "POST";
     URL_Path := "/abis/abi1/0x2b8c0ecc76d0759a8f50b2e14a6881367d805832/set";
     Form := ∅;
     getFlyParam := flyParams from;
     YAMLorJSONPayload := inr {[ "x" := JString "1" ]} |}.

Definition paramsSet (address : string) : Params :=
  [("abi", "abi1"); ("address", address); ("method", "set")].

Definition goodAddress : string := "0x2b8c0ECc76d0759a8F50b2E14A6881367D805832".
Definition goodFrom : string := "0xAA983AD2a0e0eD8ac639277F37be42F2A5d2618c".

(** *** A registry server and a cache, as in
        TestRemoteRegistryloadFactoryForGatewayCached *)

Import contracts.

(** The store as LevelDB behaves: a finite map; a missing key is an error. *)
Definition ldb_Get (s : gmap string string) (k : string) : error + string :=
  match s !! k with
  | Some b => inr b
  | None => inl (External "leveldb: not found")
  end.

Definition ldb_Put (s : gmap string string) (k b : string)
    : gmap string string * option error :=
  (<[k := b]> s, None).

(** The server of the test: it counts the calls, knows the id [testid],
    and answers 404 (a nil response and no error) to anything else. *)
Definition testResponse : gmap string JSON :=
  {[ "id" := JString "12345"; "abi" := JString "[]"; "devdoc" := JString "";
     "bin" := JString "0x6080"; "address" := JString "0x35344E187D669D930C9d513AaC63Ae204fC03C18" ]}.

Definition testServer (callCount : nat) (method url : string)
    (body : option (gmap string string))
    : nat * (option (gmap string JSON) * option error) :=
  if String.eqb url "http://registry/somepath/testid"
  then (S callCount, (Some testResponse, None))
  else (S callCount, (None, None)).

(** Modelled from the spec: [utils.HTTPRequester.GetResponseString] is not
    among the sources.  A property is required; a null or an empty string
    is an error unless empty is allowed; a value that is no string is an
    error. *)
Definition getResponseString (m : gmap string JSON) (p : string) (emptyOK : bool)
    : error + string :=
  match m !! p with
  | None => inl (External ("'" +:+ p +:+ "' missing in Contract registry response"))
  | Some JNull =>
      if emptyOK then inr ""
      else inl (External ("'" +:+ p +:+ "' empty (or null)"))
  | Some (JString v) =>
      if negb emptyOK && String.eqb v ""
      then inl (External ("'" +:+ p +:+ "' empty (or null)"))
      else inr v
  | Some _ => inl (External ("'" +:+ p +:+ "' not a string"))
  end.

(** A stub of [encoding/json] for the fixtures: the empty ABI, and a
    cached message as its id, its bytecode in hex and its address between
    commas. *)
Definition unmarshalABIStub (abiString : string) : option ABIMarshaling :=
  if String.eqb abiString "[]" then Some [] else None.

Definition marshalMsgStub (msg : deployContractWithAddress) : string :=
  Headers_ID (DeployContract_ msg) +:+ "," +:+
  gostrings.EncodeToString (Compiled (DeployContract_ msg)) +:+ "," +:+ Address msg.

Definition unmarshalMsgStub (b : string) : option deployContractWithAddress :=
  match gostrings.Split "," b with
  | [id; code; addr] =>
      match gostrings.DecodeString code with
      | Some compiled =>
          Some {| DeployContract_ :=
                    {| Headers_ID := id; Headers_Context_remoteRegistry := true;
                       contracts.ABI := []; DevDoc := ""; Compiled := compiled |};
                  contracts.Address := addr |}
      | None => None
      end
  | _ => None
  end.

#[export] Instance testCollaborators : Collaborators := {|
  KV := gmap string string;
  kv_Get := ldb_Get;
  kv_Put := ldb_Put;
  NewLDBKeyValueStore := fun path => inr ∅;
  HR := nat;
  JSONRes := gmap string JSON;
  DoRequest := testServer;
  GetResponseString := getResponseString;
  unmarshalABI := unmarshalABIStub;
  marshalMsg := marshalMsgStub;
  unmarshalMsg := unmarshalMsgStub;
|}.

Definition testPropNames : RemoteRegistryPropNamesConf :=
  {| prop_ID := ""; prop_Name := ""; prop_ABI := ""; prop_Bytecode := "bin";
     prop_Devdoc := ""; prop_Deployable := ""; prop_Address := "" |}.

Definition cachedConf : RemoteRegistryConf :=
  {| CacheDB := "/tmp/testdb"; GatewayURLPrefix := "http://registry/somepath";
     InstanceURLPrefix := ""; PropNames := testPropNames |}.

(** [NewRemoteRegistry] and [init] on [cachedConf]. *)
Definition cachedRegistry : remoteRegistry :=
  fst (init (NewRemoteRegistry cachedConf 0%nat)).

(** [NewRemoteRegistry(&RemoteRegistryConf{})]. *)
Definition emptyConf : RemoteRegistryConf :=
  {| CacheDB := ""; GatewayURLPrefix := ""; InstanceURLPrefix := "";
     PropNames := {| prop_ID := ""; prop_Name := ""; prop_ABI := "";
                     prop_Bytecode := ""; prop_Devdoc := ""; prop_Deployable := "";
                     prop_Address := "" |} |}.

Definition noopRegistry : remoteRegistry := NewRemoteRegistry emptyConf 0%nat.

(** The message that the server's answer makes: the bytecode is the two
    bytes 0x60 0x80. *)
Definition testMsg : deployContractWithAddress :=
  {| DeployContract_ :=
       {| Headers_ID := "12345"; Headers_Context_remoteRegistry := true;
          contracts.ABI := []; DevDoc := "";
          Compiled := String (ascii_of_nat 96) (String (ascii_of_nat 128) "") |};
     contracts.Address := "35344e187d669d930c9d513aac63ae204fc03c18" |}.

(** [POST /gateways/testid] and [POST /instances/testid/set]. *)
Definition postGateway : Request :=
  {| Method := "POST"; URL_Path := "/gateways/testid"; Form := ∅;
     getFlyParam := flyParams goodFrom; YAMLorJSONPayload := inr ∅ |}.

Definition postInstance : Request :=
  {| Method := "POST"; URL_Path := "/instances/testid/set"; Form := ∅;
     getFlyParam := flyParams goodFrom; YAMLorJSONPayload := inr ∅ |}.

(** A store over a registry, with nothing local. *)
Definition storeOver (rr : remoteRegistry) : ContractResolver :=
  contractregistry.resolverOver rr
    (fun name => inl (External "stub: no local ABI"))
    (fun name => inl (External "stub: name not registered"))
    (fun a => inl (External "stub: no such instance")).

(** *** The transactions of txn_test.go *)

Import eth.

(** The signer of the tests: it signs everything as "testbytes". *)
Definition mockTXSigner : TXSigner :=
  {| signer_Type := "mock signer"; supportsPrivate := false;
     Sign := fun _ => inr ("testbytes", "0xAA983AD2a0e0eD8ac639277F37be42F2A5d2618c") |}.

(** TestSendWithTXSignerOK: a signer, and no gas. *)
Definition txSignerNoGas : Txn :=
  {| NodeAssignNonce := false; Nonce := 0; From := "hd-u0abcd1234-u0bcde9876-12345";
     To := Some "0x2b8c0ECc76d0759a8F50b2E14A6881367D805832"; Gas := None;
     GasPrice := 789; Value := 0; Data := ""; Signer := Some mockTXSigner;
     PrivateFrom := ""; PrivateFor := []; PrivacyGroupID := ""; Hash := "" |}.

(** TestNewContractWithTXSignerOK: a signer, and a gas of 456. *)
Definition txSignerGas : Txn :=
  {| NodeAssignNonce := false; Nonce := 0; From := "hd-u0abcd1234-u0bcde9876-12345";
     To := None; Gas := Some 456%N;
     GasPrice := 789; Value := 0; Data := "bytecode"; Signer := Some mockTXSigner;
     PrivateFrom := ""; PrivateFor := []; PrivacyGroupID := ""; Hash := "" |}.

(** TestNewContractDeployTxnSimpleStorageCalcGas: no signer, no gas. *)
Definition txCalcGas : Txn :=
  {| NodeAssignNonce := false; Nonce := 123;
     From := "0xAA983AD2a0e0eD8ac639277F37be42F2A5d2618c";
     To := None; Gas := None; GasPrice := 789; Value := 0; Data := "bytecode";
     Signer := None; PrivateFrom := ""; PrivateFor := []; PrivacyGroupID := "";
     Hash := "" |}.

(** TestNewContractDeployTxnSimpleStoragePrivateOrion, and the same
    without the private-from. *)
Definition txOrion (privateFrom : string) : Txn :=
  {| NodeAssignNonce := false; Nonce := 123;
     From := "0xAA983AD2a0e0eD8ac639277F37be42F2A5d2618c";
     To := None; Gas := None; GasPrice := 0; Value := 678; Data := "bytecode";
     Signer := None; PrivateFrom := privateFrom; PrivateFor := [];
     PrivacyGroupID := "P8SxRUussJKqZu4+nUkMJpscQeWOR3HqbAXLakatsk8="; Hash := "" |}.

(** TestNewContractDeployTxnSimpleStoragePrivate. *)
Definition txPrivateFor : Txn :=
  {| NodeAssignNonce := false; Nonce := 123;
     From := "0xAA983AD2a0e0eD8ac639277F37be42F2A5d2618c";
     To := None; Gas := None; GasPrice := 0; Value := 678; Data := "bytecode";
     Signer := None; PrivateFrom := "oD76ZRgu6py/WKrsXbtF9++Mf1mxVxzqficE1Uiw6S8=";
     PrivateFor := ["s6a3mQ8I+rI2ZgHqHZlJaELiJs10HxlZNIwNd669FH4="];
     PrivacyGroupID := ""; Hash := "" |}.

(** The clients of the tests: [mockError] and [mockError2] set, or a
    result wrangler. *)
Definition failing (e1 : option error) (e2 : option error) : testRPCClient :=
  {| mockError := e1; capturedMethod := ""; capturedArgs := [];
     mockError2 := e2; capturedMethod2 := ""; capturedArgs2 := [];
     resultWrangler := None |}.

Definition returning (retVal : string) : testRPCClient :=
  {| mockError := None; capturedMethod := ""; capturedArgs := [];
     mockError2 := None; capturedMethod2 := ""; capturedArgs2 := [];
     resultWrangler := Some retVal |}.

(** The payloads of TestCallMethodRevert, TestCallMethodRevertBadStrLen
    and TestCallMethodRevertBadBytes. *)
Definition revertPayload : string :=
  "0x08c379a0000000000000000000000000000000000000000000000000000000000000002000000000000000000000000000000000000000000000000000000000000000114d75707065747279206465746563746564000000000000000000000000000000".

Definition revertPayloadBadStrLen : string :=
  "0x08c379a0000000000000000000000000000000000000000000000000000000000000002000000000000000000000000000000000000000000000000000000000011111114d75707065747279206465746563746564000000000000000000000000000000".

Definition revertPayloadBadBytes : string :=
  "0x08c379a0000000000000000000000000000000000000000000000000000000000000002000000000000000000000000000000000000000000000000000000000000002!!!!".


End scenarios.

(* ===================================================================== *)
(** * Part II: properties                                                 *)
(* ===================================================================== *)

(** ** The in-flight limiter *)

Module webhooksdirect_props.
Import webhooksdirect scenarios.

(** A configuration that passed validation has a positive cap. *)
Lemma validate_MaxInFlight_pos c c' :
  validateWebhooksDirectConf c = (c', None) -> 0 < MaxInFlight c'.
Proof.
  unfold validateWebhooksDirectConf.
  destruct (String.eqb (RPC_URL c) ""); [discriminate|].
  destruct (MaxTXWaitTime c <? 10); cbn [MaxInFlight];
    destruct (MaxInFlight c <=? 0) eqn:E; intros [= <-]; cbn; lia.
Qed.

Section Bridge.
Variable Msg : Type.
Variable unmarshalHeaders : Msg -> option CommonHeaders.
Variable ReplyMsg : Type.

Abbreviation bridge := (webhooksDirect Msg ReplyMsg).
Abbreviation send := (sendWebhookMsg Msg unmarshalHeaders ReplyMsg).
Abbreviation reply := (Reply Msg ReplyMsg).
Abbreviation exec := (run Msg unmarshalHeaders ReplyMsg).
Abbreviation fresh := (newWebhooksDirect Msg ReplyMsg).

(** The three ways [sendWebhookMsg] ends. *)
Lemma send_cases (w : bridge) now k i m a :
  (MaxInFlight (conf w) <= numInFlight w
   /\ send w now k i m a = (w, ("", 429, Some (Errorf WebhooksDirectTooManyInflight []))))
  \/ (numInFlight w < MaxInFlight (conf w)
      /\ unmarshalHeaders m = None
      /\ send w now k i m a = (w, ("", 400, Some (Errorf WebhooksDirectBadHeaders []))))
  \/ (numInFlight w < MaxInFlight (conf w)
      /\ exists ctx, msgID ctx = i
         /\ conf (fst (send w now k i m a)) = conf w
         /\ inFlight (fst (send w now k i m a)) = <[i := ctx]> (inFlight w)
         /\ snd (send w now k i m a) = ("", 200, None)).
Proof.
  unfold sendWebhookMsg, numInFlight.
  destruct (MaxInFlight (conf w) <=? Z.of_nat (size (inFlight w))) eqn:E.
  - left. split; [lia | reflexivity].
  - right. destruct (unmarshalHeaders m) as [h|].
    + right. split; [lia|]. eexists. cbn. repeat split; reflexivity.
    + left. split; [lia|]. split; reflexivity.
Qed.

Lemma send_conf (w : bridge) now k i m a :
  conf (fst (send w now k i m a)) = conf w.
Proof.
  destruct (send_cases w now k i m a) as [[_ ->]|[(_ & _ & ->)|(_ & ctx & _ & H & _)]];
    auto.
Qed.

Lemma size_insert_le (M : gmap string (msgContext Msg)) i x :
  (size (<[i := x]> M) <= S (size M))%nat.
Proof. rewrite map_size_insert. destruct (M !! i); simpl; lia. Qed.

Lemma size_delete_le (M : gmap string (msgContext Msg)) i :
  (size (delete i M) <= size M)%nat.
Proof. rewrite map_size_delete. destruct (M !! i); simpl; lia. Qed.

(** A dispatch keeps the bound: the size is read and the entry written
    in the same critical section. *)
Lemma send_bounded (w : bridge) now k i m a :
  numInFlight w <= MaxInFlight (conf w) ->
  numInFlight (fst (send w now k i m a)) <= MaxInFlight (conf w).
Proof.
  intros Hb.
  destruct (send_cases w now k i m a)
    as [[_ ->]|[(_ & _ & ->)|(Hlt & ctx & _ & _ & Hin & _)]]; auto.
  unfold numInFlight in *. rewrite Hin.
  pose proof (size_insert_le (inFlight w) i ctx). lia.
Qed.

Lemma reply_bounded (w : bridge) t r :
  numInFlight w <= MaxInFlight (conf w) ->
  numInFlight (reply t r w) <= MaxInFlight (conf (reply t r w)).
Proof.
  unfold numInFlight. cbn. intros Hb.
  pose proof (size_delete_le (inFlight w) (msgID t)). lia.
Qed.

Lemma step_bounded (w : bridge) o :
  numInFlight w <= MaxInFlight (conf w) ->
  numInFlight (step Msg unmarshalHeaders ReplyMsg w o)
  <= MaxInFlight (conf (step Msg unmarshalHeaders ReplyMsg w o))
  /\ conf (step Msg unmarshalHeaders ReplyMsg w o) = conf w.
Proof.
  intros Hb. destruct o as [now k i m a | t r]; cbn [step].
  - rewrite send_conf. split; [by apply send_bounded | done].
  - split; [by apply reply_bounded | done].
Qed.

Lemma run_bounded ops (w : bridge) :
  numInFlight w <= MaxInFlight (conf w) ->
  numInFlight (exec ops w) <= MaxInFlight (conf (exec ops w))
  /\ conf (exec ops w) = conf w.
Proof.
  revert w. induction ops as [|o ops IH]; intros w Hb; [done|].
  destruct (step_bounded w o Hb) as [Hb' Hc].
  destruct (IH _ Hb') as [H1 H2].
  change (exec (o :: ops) w)
    with (exec ops (step Msg unmarshalHeaders ReplyMsg w o)).
  split; [exact H1 | by rewrite H2].
Qed.

(** C1.  After [validateWebhooksDirectConf] has accepted the
    configuration, whatever dispatches and replies a bridge goes
    through, in any order, the in-flight map holds at most [MaxInFlight]
    entries each time the mutex is taken.  In every such state: a
    dispatch that finds the map at the cap answers 429 with "Too many
    messages currently in flight" and changes nothing; a 429 is only
    answered when the map was at the cap; an entry is inserted, under
    the message ID, exactly by a dispatch that is accepted with 200; and
    [Reply] deletes the entry of its message ID. *)
Theorem inFlight_bounded_by_MaxInFlight :
  forall c c', validateWebhooksDirectConf c = (c', None) ->
  forall ops, let w := exec ops (fresh c') in
    numInFlight w <= MaxInFlight c'
    /\ conf w = c'
    /\ (forall now k i m a,
          MaxInFlight c' <= numInFlight w ->
          send w now k i m a
          = (w, ("", 429, Some (Errorf WebhooksDirectTooManyInflight []))))
    /\ template WebhooksDirectTooManyInflight
       = Some "Too many messages currently in flight"
    /\ (forall now k i m a,
          status_of (send w now k i m a) = 429 ->
          MaxInFlight c' <= numInFlight w)
    /\ (forall now k i m a,
          (status_of (send w now k i m a) = 200
           /\ exists ctx, msgID ctx = i
              /\ inFlight (fst (send w now k i m a)) = <[i := ctx]> (inFlight w))
          \/ (status_of (send w now k i m a) <> 200
              /\ fst (send w now k i m a) = w))
    /\ (forall t r, inFlight (reply t r w) = delete (msgID t) (inFlight w)).
Proof.
  intros c c' Hv ops w.
  pose proof (validate_MaxInFlight_pos c c' Hv) as Hpos.
  assert (Hinit : numInFlight (fresh c') <= MaxInFlight (conf (fresh c'))).
  { unfold numInFlight. cbn. rewrite map_size_empty. lia. }
  destruct (run_bounded ops _ Hinit) as [Hb Hc]. fold w in Hb, Hc.
  cbn in Hc. rewrite Hc in Hb.
  split; [exact Hb|]. split; [exact Hc|].
  split.
  { intros now k i m a Hfull.
    destruct (send_cases w now k i m a)
      as [[_ ->]|[(Hlt & _)|(Hlt & _)]]; [done| |]; rewrite Hc in Hlt; lia. }
  split; [reflexivity|].
  split.
  { intros now k i m a.
    destruct (send_cases w now k i m a)
      as [[Hfull _]|[(_ & _ & ->)|(_ & ctx & _ & _ & _ & Hr)]].
    - intros _. by rewrite <- Hc.
    - discriminate.
    - unfold status_of. rewrite Hr. discriminate. }
  split.
  { intros now k i m a.
    destruct (send_cases w now k i m a)
      as [[_ ->]|[(_ & _ & ->)|(_ & ctx & Hid & _ & Hin & Hr)]].
    - right. by split.
    - right. by split.
    - left. split; [unfold status_of; by rewrite Hr|]. by exists ctx. }
  reflexivity.
Qed.

End Bridge.

Lemma inFlight_bounded_by_MaxInFlight_witness :
  validateWebhooksDirectConf conf_S5 = (conf_S5, None)
  /\ status_of (sendWebhookMsg string headers_S5 unit
                  (run string headers_S5 unit ops_S5
                     (newWebhooksDirect string unit conf_S5))
                  1 "key" "msg2" "msg2" true) = 429.
Proof.
  split; [reflexivity|].
  destruct (inFlight_bounded_by_MaxInFlight string headers_S5 unit
              conf_S5 conf_S5 eq_refl ops_S5) as (_ & _ & H429 & _).
  rewrite H429; [reflexivity|].
  vm_compute. discriminate.
Defined.

End webhooksdirect_props.

(** ** The synchronous responder *)

Module responder_props.
Import contractgateway.

Section Responder.
Variable GW : Type.
Variable PostDeploy : GW -> TransactionReceipt -> GW * option error.
Variable MsgTypeTransactionSuccess : string.

Abbreviation responder := (rest2EthSyncResponder GW).
Abbreviation withReceipt := (ReplyWithReceipt GW PostDeploy MsgTypeTransactionSuccess).
Abbreviation handle := (deliver GW PostDeploy MsgTypeTransactionSuccess).

(** The status that a receipt gets by its message type alone. *)
Lemma reply_plain_spec (i : responder) receipt :
  let i' := reply_plain GW MsgTypeTransactionSuccess i receipt in
  done i' = true /\ broadcasts i' = S (broadcasts i)
  /\ gw i' = gw i /\ postDeployed i' = postDeployed i
  /\ res i' = (res i ++ [{| status := if String.eqb (ReplyHeaders_MsgType receipt)
                                                  MsgTypeTransactionSuccess
                                     then 200 else 500;
                           body := BodyReceipt receipt |}])%list.
Proof. cbn. repeat split; reflexivity. Qed.

(** The hook runs exactly when [IsReceipt] is a receipt with a contract
    address. *)
Lemma ReplyWithReceipt_hook (i : responder) receipt :
  (forall rc a, IsReceipt receipt = Some rc -> ContractAddress rc = Some a ->
     postDeployed (withReceipt i receipt) = (postDeployed i ++ [rc])%list
     /\ gw (withReceipt i receipt) = fst (PostDeploy (gw i) rc))
  /\ ((forall rc, IsReceipt receipt = Some rc -> ContractAddress rc = None) ->
      postDeployed (withReceipt i receipt) = postDeployed i
      /\ gw (withReceipt i receipt) = gw i).
Proof.
  unfold ReplyWithReceipt. split.
  - intros rc a -> ->. destruct (PostDeploy (gw i) rc) as [g [e|]]; cbn; auto.
  - intros H. destruct (IsReceipt receipt) as [rc|]; [|by cbn].
    rewrite (H rc eq_refl). by cbn.
Qed.

(** C5.  Each of the three reply entry points of the synchronous
    responder sets [done], broadcasts once on the waiter, and writes one
    response.  [ReplyWithError] and [ReplyWithReceiptAndError] answer
    500.  [ReplyWithReceipt] invokes the post-deploy hook exactly when
    the reply is a receipt with a non-nil [ContractAddress]; if the hook
    fails, the answer is the one of [ReplyWithReceiptAndError], status
    500; otherwise the status is 200 when the message type of the reply
    headers is [MsgTypeTransactionSuccess] and 500 when it is not. *)
Theorem sync_responder_status :
  forall (i : responder) (r : reply),
    let i' := handle i r in
    done i' = true
    /\ broadcasts i' = S (broadcasts i)
    /\ exists resp,
         res i' = (res i ++ [resp])%list
         /\ match r with
            | WithError err =>
                resp = {| status := 500; body := BodyError err |}
                /\ postDeployed i' = postDeployed i
            | WithReceiptAndError receipt err =>
                resp = {| status := 500; body := BodyReceiptAndError err receipt |}
                /\ postDeployed i' = postDeployed i
            | WithReceipt receipt =>
                let byType := if String.eqb (ReplyHeaders_MsgType receipt)
                                            MsgTypeTransactionSuccess
                              then 200 else 500 in
                match deployedContract receipt with
                | Some rc =>
                    postDeployed i' = (postDeployed i ++ [rc])%list
                    /\ gw i' = fst (PostDeploy (gw i) rc)
                    /\ match snd (PostDeploy (gw i) rc) with
                       | Some err =>
                           i' = ReplyWithReceiptAndError GW
                                  {| gw := fst (PostDeploy (gw i) rc); res := res i;
                                     done := done i; broadcasts := broadcasts i;
                                     postDeployed := (postDeployed i ++ [rc])%list |}
                                  receipt err
                           /\ resp = {| status := 500;
                                        body := BodyReceiptAndError err receipt |}
                       | None =>
                           resp = {| status := byType; body := BodyReceipt receipt |}
                       end
                | None =>
                    postDeployed i' = postDeployed i
                    /\ gw i' = gw i
                    /\ resp = {| status := byType; body := BodyReceipt receipt |}
                end
            end.
Proof.
  intros i [err | receipt | receipt err]; cbn [deliver].
  - cbn. repeat split. eexists. repeat split.
  - unfold ReplyWithReceipt.
    unfold deployedContract.
    destruct (IsReceipt receipt) as [rc|];
      [destruct (ContractAddress rc) as [a|]|].
    + destruct (PostDeploy (gw i) rc) as [g [e|]]; cbn;
        repeat split; eexists; repeat split.
    + cbn. repeat split. eexists. repeat split.
    + cbn. repeat split. eexists. repeat split.
  - cbn. repeat split. eexists. repeat split.
Qed.

End Responder.

End responder_props.

(** ** Addresses in the resolver *)

Module resolver_props.
Import gostrings contractgateway scenarios.

Section Resolver.
Context {U : UnicodeTables}.
Variable cr : ContractResolver.
Variable toMethod : ABIElementMarshaling -> error + ABIMethod.
Variable toEvent : ABIElementMarshaling -> error + ABIEvent.

Abbreviation element := (resolveElement cr toMethod toEvent).
Abbreviation resolve := (resolveParams cr toMethod toEvent).

Lemma checkFromAddress_invalid req c :
  invalidFrom req = true ->
  checkFromAddress req c = Rejected 404 (Errorf RESTGatewayInvalidFromAddress []).
Proof.
  unfold invalidFrom, checkFromAddress.
  intros [[H1 H2]%andb_prop H3]%andb_prop.
  rewrite H1. apply negb_true_iff in H2. rewrite H2.
  apply bool_decide_eq_true in H3.
  rewrite bool_decide_eq_false_2; [reflexivity|]. intros H; by apply H.
Qed.

Lemma checkToAddress_invalid c :
  c_addr c <> "" ->
  checkToAddress c false = Rejected 404 (Errorf RESTGatewayInvalidToAddress []).
Proof.
  intros H. unfold checkToAddress, nonempty.
  destruct (String.eqb_spec (c_addr c) ""); [done | reflexivity].
Qed.

(** Once the ABI element is resolved, [resolveParams] is the two address
    checks and then the inputs. *)
Lemma resolve_after_element req params c4 v :
  element req params = Done (c4, v) ->
  resolve req params
  = (c5 ← checkToAddress c4 v; c6 ← checkFromAddress req c5; resolveInputs req c6).
Proof. intros H. unfold resolveParams. rewrite H. reflexivity. Qed.

(** An unknown name in place of the address, on a local route without
    [:abi], stops [resolveABI] with 404 and the error of the store. *)
Lemma resolveABI_unresolved req params addrParam err :
  HasPrefix (URL_Path req) "/gateways/" || HasPrefix (URL_Path req) "/g/" = false ->
  HasPrefix (URL_Path req) "/instances/" || HasPrefix (URL_Path req) "/i/" = false ->
  ByName params "abi" = "" ->
  addrCheck (ToLower (TrimPrefix addrParam "0x")) = false ->
  ResolveContractAddress cr addrParam = inl err ->
  resolveABI cr req params restCmd0 addrParam = Rejected 404 err.
Proof.
  intros Hg Hi Habi Hbad Hres.
  unfold resolveABI, resolveLocation.
  rewrite Hg, Hi, Habi. cbn [nonempty String.eqb negb c_addr set_addr].
  rewrite Hbad, Hres. reflexivity.
Qed.

(** C8, as the code has it.  A request with an address that the gateway
    refuses is answered 404.  A 'from' parameter that is given and,
    without its 0x and lowered by [strings.ToLower], is refused by
    [addrCheck] and is no HD-wallet reference: the request is never
    resolved, and once the ABI element is resolved and the 'to' address
    has passed, the answer is 404 with [RESTGatewayInvalidFromAddress].
    A 'to' address that is left non-empty and not valid when the ABI
    element is resolved: 404 with [RESTGatewayInvalidToAddress].  A path
    segment that [addrCheck] refuses and the store does not resolve as a
    name, on a local route without [:abi]: 404 with the error of the
    store.  Nothing is said of what [addrCheck] accepts. *)
Theorem invalid_address_answered_404 :
  forall req params,
    (invalidFrom req = true ->
       (forall c, resolve req params <> Done c)
       /\ (forall c4 v c5,
             element req params = Done (c4, v) ->
             checkToAddress c4 v = Done c5 ->
             rejection (resolve req params)
             = Some {| status := 404;
                       body := BodyError (Errorf RESTGatewayInvalidFromAddress []) |}))
    /\ (forall c4,
          element req params = Done (c4, false) ->
          c_addr c4 <> "" ->
          rejection (resolve req params)
          = Some {| status := 404;
                    body := BodyError (Errorf RESTGatewayInvalidToAddress []) |})
    /\ (forall err,
          HasPrefix (URL_Path req) "/gateways/" || HasPrefix (URL_Path req) "/g/" = false ->
          HasPrefix (URL_Path req) "/instances/" || HasPrefix (URL_Path req) "/i/" = false ->
          ByName params "abi" = "" ->
          addrCheck (ToLower (TrimPrefix (ByName params "address") "0x")) = false ->
          ResolveContractAddress cr (ByName params "address") = inl err ->
          rejection (resolve req params)
          = Some {| status := 404; body := BodyError err |}).
Proof.
  intros req params. split; [|split].
  - intros Hbad. split.
    + intros c. unfold resolveParams.
      destruct (element req params) as [[c4 v]|s e|]; cbn; [|done|done].
      destruct (checkToAddress c4 v) as [c5|s e|]; cbn; [|done|done].
      rewrite (checkFromAddress_invalid req c5 Hbad). done.
    + intros c4 v c5 He Hto.
      rewrite (resolve_after_element _ _ _ _ He), Hto. cbn.
      rewrite (checkFromAddress_invalid req c5 Hbad). reflexivity.
  - intros c4 He Haddr.
    rewrite (resolve_after_element _ _ _ _ He), (checkToAddress_invalid _ Haddr).
    reflexivity.
  - intros err Hg Hi Habi Hbad Hres.
    unfold resolveParams, resolveElement.
    rewrite (resolveABI_unresolved req params _ err Hg Hi Habi Hbad Hres).
    reflexivity.
Qed.

End Resolver.

(** The counterexample to C8 as it is stated: [POST
    /abis/abi1/<address>/set] with a 'from' of "badness" is answered 404,
    not 400. *)
Lemma invalid_from_is_not_400 :
  invalidFrom (postSet "badness") = true
  /\ rejection (resolveParams storeStub toMethodStub toEventStub
                  (postSet "badness") (paramsSet goodAddress))
     = Some {| status := 404;
               body := BodyError (Errorf RESTGatewayInvalidFromAddress []) |}
  /\ ~ (exists e,
          rejection (resolveParams storeStub toMethodStub toEventStub
                       (postSet "badness") (paramsSet goodAddress))
          = Some {| status := 400; body := BodyError e |}).
Proof.
  assert (H : rejection (resolveParams storeStub toMethodStub toEventStub
                           (postSet "badness") (paramsSet goodAddress))
              = Some {| status := 404;
                        body := BodyError (Errorf RESTGatewayInvalidFromAddress []) |})
    by (vm_compute; reflexivity).
  split; [vm_compute; reflexivity|]. split; [exact H|].
  intros [e He]. rewrite H in He. discriminate He.
Qed.

Lemma invalid_address_answered_404_witness :
  invalidFrom (postSet "badness") = true
  /\ rejection (resolveParams storeStub toMethodStub toEventStub
                  (postSet "badness") (paramsSet goodAddress))
     = Some {| status := 404;
               body := BodyError (Errorf RESTGatewayInvalidFromAddress []) |}
  /\ rejection (resolveParams storeStub toMethodStub toEventStub
                  (postSet goodFrom) (paramsSet "not-an-address"))
     = Some {| status := 404;
               body := BodyError (Errorf RESTGatewayInvalidToAddress []) |}.
Proof.
  pose proof (invalid_address_answered_404 storeStub toMethodStub toEventStub
                (postSet "badness") (paramsSet goodAddress)) as [Hfrom _].
  pose proof (invalid_address_answered_404 storeStub toMethodStub toEventStub
                (postSet goodFrom) (paramsSet "not-an-address")) as (_ & Hto & _).
  split; [vm_compute; reflexivity|]. split.
  - destruct (Hfrom ltac:(vm_compute; reflexivity)) as [_ H].
    eapply H; vm_compute; reflexivity.
  - eapply Hto; [vm_compute; reflexivity | vm_compute; discriminate].
Defined.

(** A 'from' outside ASCII goes through the Unicode tables before it is
    checked: 39 times [a] and the Kelvin sign U+212A, which the tables
    of Go lower to [k], is an address for [addrCheck], and so is not an
    invalid 'from'. *)
Lemma kelvin_sign_from_is_not_invalid :
  forall U : UnicodeTables,
    let a39 := "aaaaaaaaaaaaaaaaaaaaaaaaaaaaaaaaaaaaaaa" in
    let kelvin := String (ascii_of_nat 226)
                    (String (ascii_of_nat 132) (String (ascii_of_nat 170) "")) in
    Map_unicode_ToLower (a39 +:+ kelvin) = a39 +:+ "k" ->
    invalidFrom (postSet (a39 +:+ kelvin)) = false
    /\ checkFromAddress (postSet (a39 +:+ kelvin)) restCmd0
       = Done (set_from ("0x" +:+ a39 +:+ "k") restCmd0).
Proof.
  intros U a39 kelvin Htables.
  assert (Hlow : ToLower (TrimPrefix (getFlyParam (postSet (a39 +:+ kelvin)) "from") "0x")
                 = a39 +:+ "k").
  { change (TrimPrefix (getFlyParam (postSet (a39 +:+ kelvin)) "from") "0x")
      with (a39 +:+ kelvin).
    unfold ToLower. change (isASCII (a39 +:+ kelvin)) with false. exact Htables. }
  unfold invalidFrom, checkFromAddress. cbv zeta. rewrite Hlow. split; reflexivity.
Qed.

End resolver_props.

(** ** The cache of the remote registry *)

Module registry_props.
Import gostrings contractgateway contracts scenarios.

Section Registry.
Context {U : UnicodeTables} {C : Collaborators}.

(** A cache hit: no request is made. *)
Lemma load_hit (rr : remoteRegistry) s baseURL ns lookupStr b msg :
  db rr = Some s ->
  kv_Get s (ns +:+ "/" +:+ QueryEscape lookupStr) = inr b ->
  unmarshalMsg b = Some msg ->
  loadFactoryFromURL rr baseURL ns lookupStr false
  = ({| conf := conf rr; hr := hr rr; db := db rr;
        trace := (trace rr ++ [CacheGet (ns +:+ "/" +:+ QueryEscape lookupStr)])%list |},
     (Some msg, None)).
Proof.
  intros Hdb Hget Hun. unfold loadFactoryFromURL, loadFactoryFromCacheDB, record.
  rewrite Hdb, Hget, Hun. reflexivity.
Qed.

Lemma load_refresh (rr : remoteRegistry) baseURL ns lookupStr :
  loadFactoryFromURL rr baseURL ns lookupStr true = fetch rr baseURL ns lookupStr.
Proof. reflexivity. Qed.

Lemma load_miss (rr : remoteRegistry) baseURL ns lookupStr :
  snd (loadFactoryFromCacheDB rr (ns +:+ "/" +:+ QueryEscape lookupStr)) = None ->
  loadFactoryFromURL rr baseURL ns lookupStr false
  = fetch (fst (loadFactoryFromCacheDB rr (ns +:+ "/" +:+ QueryEscape lookupStr)))
          baseURL ns lookupStr.
Proof.
  intros Hmiss. unfold loadFactoryFromURL.
  destruct (loadFactoryFromCacheDB rr (ns +:+ "/" +:+ QueryEscape lookupStr))
    as [rr1 cached]. cbn [fst snd] in *. by subst cached.
Qed.

(** A fetch that succeeds writes the serialized message under the key. *)
Lemma fetch_stores (rr1 : remoteRegistry) s baseURL ns lookupStr rr' msg err :
  db rr1 = Some s ->
  fetch rr1 baseURL ns lookupStr = (rr', (Some msg, err)) ->
  err = None
  /\ db rr' = Some (fst (kv_Put s (ns +:+ "/" +:+ QueryEscape lookupStr) (marshalMsg msg)))
  /\ trace rr' = (trace rr1 ++ [HTTP "GET" (baseURL +:+ QueryEscape lookupStr);
                                CachePut (ns +:+ "/" +:+ QueryEscape lookupStr)
                                         (marshalMsg msg)])%list.
Proof.
  intros Hdb. unfold fetch.
  destruct (DoRequest (hr rr1) "GET" (baseURL +:+ QueryEscape lookupStr) None)
    as [hr' [[j|] [e|]]]; cbn [fst snd]; try discriminate.
  destruct (processResponse rr1 j) as [e|m]; [discriminate|].
  unfold storeFactoryToCacheDB. cbn [db]. rewrite Hdb.
  destruct (kv_Put s (ns +:+ "/" +:+ QueryEscape lookupStr) (marshalMsg m))
    as [s' pe] eqn:Hput.
  intros [= <- <- <-]. cbn [db trace fst].
  rewrite Hput. cbn [fst]. rewrite <- app_assoc. done.
Qed.

Lemma fetch_trace (rr1 : remoteRegistry) baseURL ns lookupStr :
  exists rest,
    trace (fst (fetch rr1 baseURL ns lookupStr))
    = (trace rr1 ++ HTTP "GET" (baseURL +:+ QueryEscape lookupStr) :: rest)%list
    /\ forall k, CacheGet k ∉ rest.
Proof.
  unfold fetch.
  destruct (DoRequest (hr rr1) "GET" (baseURL +:+ QueryEscape lookupStr) None)
    as [hr' [[j|] [e|]]]; cbn [fst snd];
    try (exists []; split; [reflexivity | intros k Hk; by apply elem_of_nil in Hk]).
  destruct (processResponse rr1 j) as [e|m]; cbn [fst];
    try (exists []; split; [reflexivity | intros k Hk; by apply elem_of_nil in Hk]).
  unfold storeFactoryToCacheDB. cbn [db].
  destruct (db rr1) as [s|]; cbn [trace].
  - destruct (kv_Put s (ns +:+ "/" +:+ QueryEscape lookupStr) (marshalMsg m)) as [s' pe].
    cbn [trace]. eexists [_]. split; [by rewrite <- app_assoc|].
    intros k Hk. apply list_elem_of_singleton in Hk. discriminate.
  - exists []. split; [reflexivity | intros k Hk; by apply elem_of_nil in Hk].
Qed.

(** C9.  With a cache database open, and [key] the namespace, a slash and
    the escaped id: a lookup with [refresh=false] that finds under [key]
    bytes that deserialize returns that message after the one read of the
    cache, without an HTTP request; a lookup with [refresh=true] reads
    nothing from the cache and performs the GET; and every lookup that
    comes back with a message after a GET, refreshed or missed, has put
    the serialized message under [key].  The namespace is "gateways" in
    [loadFactoryForGateway] and "instances" in [loadFactoryForInstance]. *)
Theorem cache_keyed_by_namespace_and_id :
  forall (rr : remoteRegistry) s baseURL ns lookupStr,
    db rr = Some s ->
    let key := ns +:+ "/" +:+ QueryEscape lookupStr in
    let url := baseURL +:+ QueryEscape lookupStr in
    (forall b msg,
       kv_Get s key = inr b -> unmarshalMsg b = Some msg ->
       loadFactoryFromURL rr baseURL ns lookupStr false
       = ({| conf := conf rr; hr := hr rr; db := db rr;
             trace := (trace rr ++ [CacheGet key])%list |}, (Some msg, None)))
    /\ (exists rest,
          trace (fst (loadFactoryFromURL rr baseURL ns lookupStr true))
          = (trace rr ++ HTTP "GET" url :: rest)%list
          /\ forall k, CacheGet k ∉ rest)
    /\ (forall rr' msg err,
          loadFactoryFromURL rr baseURL ns lookupStr true = (rr', (Some msg, err)) ->
          err = None
          /\ db rr' = Some (fst (kv_Put s key (marshalMsg msg)))
          /\ trace rr' = (trace rr ++ [HTTP "GET" url; CachePut key (marshalMsg msg)])%list)
    /\ (forall rr' msg err,
          snd (loadFactoryFromCacheDB rr key) = None ->
          loadFactoryFromURL rr baseURL ns lookupStr false = (rr', (Some msg, err)) ->
          err = None
          /\ db rr' = Some (fst (kv_Put s key (marshalMsg msg)))
          /\ trace rr' = (trace rr ++ [CacheGet key; HTTP "GET" url;
                                       CachePut key (marshalMsg msg)])%list)
    /\ (forall refresh,
          GatewayURLPrefix (conf rr) <> "" ->
          loadFactoryForGateway rr lookupStr refresh
          = let '(rr', (msg, err)) :=
              loadFactoryFromURL rr (GatewayURLPrefix (conf rr)) "gateways"
                                 lookupStr refresh in
            (rr', (DeployContract_ <$> msg, err)))
    /\ (forall refresh,
          InstanceURLPrefix (conf rr) <> "" ->
          loadFactoryForInstance rr lookupStr refresh
          = loadFactoryFromURL rr (InstanceURLPrefix (conf rr)) "instances"
                               lookupStr refresh).
Proof.
  intros rr s baseURL ns lookupStr Hdb key url.
  split; [intros b msg; by apply load_hit|].
  split; [rewrite load_refresh; apply fetch_trace|].
  split.
  { intros rr' msg err. rewrite load_refresh. by apply fetch_stores. }
  split.
  { intros rr' msg err Hmiss. rewrite (load_miss _ _ _ _ Hmiss).
    unfold loadFactoryFromCacheDB. rewrite Hdb.
    set (rr1 := record (CacheGet (ns +:+ "/" +:+ QueryEscape lookupStr)) rr).
    assert (Hfst : forall o : option deployContractWithAddress,
               fst (match kv_Get s (ns +:+ "/" +:+ QueryEscape lookupStr) with
                    | inl _ => (rr1, None)
                    | inr b => (rr1, unmarshalMsg b)
                    end) = rr1)
      by (intros _; destruct (kv_Get s _); reflexivity).
    rewrite (Hfst None). intros Hf.
    destruct (fetch_stores rr1 s baseURL ns lookupStr rr' msg err Hdb Hf)
      as (He & Hd & Ht).
    split; [done|]. split; [done|]. rewrite Ht. subst rr1. cbn [trace record].
    by rewrite <- app_assoc. }
  split.
  { intros refresh Hne. unfold loadFactoryForGateway.
    destruct (String.eqb_spec (GatewayURLPrefix (conf rr)) ""); [done|].
    destruct (loadFactoryFromURL rr (GatewayURLPrefix (conf rr)) "gateways"
                                 lookupStr refresh) as [rr' [[m|] err]]; reflexivity. }
  intros refresh Hne. unfold loadFactoryForInstance.
  destruct (String.eqb_spec (InstanceURLPrefix (conf rr)) ""); [done | reflexivity].
Qed.

End Registry.

(** TestRemoteRegistryloadFactoryForGatewayCached: two lookups and a
    forced reload make two requests. *)
Example loadFactoryForGateway_cached :
  let r1 := loadFactoryForGateway cachedRegistry "testid" false in
  let r2 := loadFactoryForGateway (fst r1) "testid" false in
  let r3 := loadFactoryForGateway (fst r2) "testid" true in
  (hr (fst r1), hr (fst r2), hr (fst r3)) = (1%nat, 1%nat, 2%nat)
  /\ snd r1 = snd r2 /\ snd r1 = snd r3.
Proof. vm_compute. repeat split. Qed.

Lemma cache_keyed_by_namespace_and_id_witness :
  db cachedRegistry = Some ∅
  /\ exists rr',
       loadFactoryFromURL cachedRegistry "http://registry/somepath/" "gateways"
                          "testid" true = (rr', (Some testMsg, None))
       /\ db rr' = Some {[ "gateways/testid" := marshalMsg testMsg ]}.
Proof.
  split; [reflexivity|].
  destruct (loadFactoryFromURL cachedRegistry "http://registry/somepath/" "gateways"
                               "testid" true) as [rr' [m e]] eqn:Hl.
  assert (Hm : m = Some testMsg)
    by (apply (f_equal (fun x => fst (snd x))) in Hl; vm_compute in Hl;
        rewrite <- Hl; reflexivity).
  subst m.
  destruct (cache_keyed_by_namespace_and_id cachedRegistry ∅
              "http://registry/somepath/" "gateways" "testid" eq_refl)
    as (_ & _ & Hstore & _).
  destruct (Hstore rr' testMsg e Hl) as (-> & Hdb & _).
  exists rr'. split; [reflexivity|]. rewrite Hdb. reflexivity.
Defined.

Section Unconfigured.
Context {U : UnicodeTables} {C : Collaborators}.

Lemma withSlash_empty : withSlash "" = "".
Proof. reflexivity. Qed.

(** Over an unconfigured registry the store finds nothing, and says so
    without an error. *)
Lemma GetABI_unconfigured (rr : remoteRegistry) local location refresh :
  (loc_ABIType location = RemoteGateway /\ GatewayURLPrefix (conf rr) = ""
   \/ loc_ABIType location = RemoteInstance /\ InstanceURLPrefix (conf rr) = "") ->
  contractregistry.GetABI rr local location refresh = (rr, inr None).
Proof.
  unfold contractregistry.GetABI, loadFactoryForGateway, loadFactoryForInstance.
  intros [[-> ->]|[-> ->]]; reflexivity.
Qed.

(** C10.  A registry whose gateway prefix is empty answers
    [loadFactoryForGateway] with a nil result and a nil error, and makes
    no request; the same for [loadFactoryForInstance] and the instance
    prefix; [NewRemoteRegistry] leaves an empty prefix empty.
    [registerInstance], for its part, returns the error
    [RemoteRegistryNotConfigured].  Behind the store, the nil result
    reaches [resolveABI], which answers 404 with
    [RESTGatewayInstanceNotFound] on the gateway routes and on the
    instance routes. *)
Theorem unconfigured_lookup_is_404 :
  forall (rr : remoteRegistry),
    (forall conf0 hr0,
       (GatewayURLPrefix conf0 = "" ->
        GatewayURLPrefix (conf (NewRemoteRegistry conf0 hr0)) = "")
       /\ (InstanceURLPrefix conf0 = "" ->
           InstanceURLPrefix (conf (NewRemoteRegistry conf0 hr0)) = ""))
    /\ (GatewayURLPrefix (conf rr) = "" ->
        forall lookupStr refresh,
          loadFactoryForGateway rr lookupStr refresh = (rr, (None, None)))
    /\ (InstanceURLPrefix (conf rr) = "" ->
        forall lookupStr refresh,
          loadFactoryForInstance rr lookupStr refresh = (rr, (None, None)))
    /\ (InstanceURLPrefix (conf rr) = "" ->
        forall lookupStr address,
          registerInstance rr lookupStr address
          = (rr, Some (Errorf RemoteRegistryNotConfigured [])))
    /\ (forall local resolveName byAddress toMethod toEvent req params,
          let cr := contractregistry.resolverOver rr local resolveName byAddress in
          let notFound :=
            Some {| status := 404;
                    body := BodyError (Errorf RESTGatewayInstanceNotFound []) |} in
          (GatewayURLPrefix (conf rr) = "" ->
           HasPrefix (URL_Path req) "/gateways/" || HasPrefix (URL_Path req) "/g/" = true ->
           rejection (resolveParams cr toMethod toEvent req params) = notFound)
          /\ (InstanceURLPrefix (conf rr) = "" ->
              HasPrefix (URL_Path req) "/gateways/" || HasPrefix (URL_Path req) "/g/" = false ->
              HasPrefix (URL_Path req) "/instances/" || HasPrefix (URL_Path req) "/i/" = true ->
              rejection (resolveParams cr toMethod toEvent req params) = notFound)).
Proof.
  intros rr. split.
  { intros conf0 hr0. cbn. split; intros ->; reflexivity. }
  split.
  { intros H l refresh. unfold loadFactoryForGateway. by rewrite H. }
  split.
  { intros H l refresh. unfold loadFactoryForInstance. by rewrite H. }
  split.
  { intros H l a. unfold registerInstance. by rewrite H. }
  intros local resolveName byAddress toMethod toEvent req params cr notFound.
  split.
  - intros Hconf Hpath.
    unfold resolveParams, resolveElement, resolveABI, resolveLocation.
    rewrite Hpath. cbn [mbind outcome_bind].
    unfold cr, contractregistry.resolverOver. cbn [GetABI].
    rewrite GetABI_unconfigured by (left; by split). reflexivity.
  - intros Hconf Hg Hpath.
    unfold resolveParams, resolveElement, resolveABI, resolveLocation.
    rewrite Hg, Hpath. cbn [mbind outcome_bind].
    unfold cr, contractregistry.resolverOver. cbn [GetABI].
    rewrite GetABI_unconfigured by (right; by split). reflexivity.
Qed.

End Unconfigured.

(** TestRemoteRegistryLoadFactoryNOOP and TestRemoteRegistryLoadInstanceNOOP,
    and the answer of the router over such a registry. *)
Lemma unconfigured_lookup_is_404_witness :
  GatewayURLPrefix (conf noopRegistry) = ""
  /\ InstanceURLPrefix (conf noopRegistry) = ""
  /\ loadFactoryForGateway noopRegistry "testid" false = (noopRegistry, (None, None))
  /\ loadFactoryForInstance noopRegistry "testid" false = (noopRegistry, (None, None))
  /\ rejection (resolveParams (storeOver noopRegistry) toMethodStub toEventStub
                  postGateway [("gateway_lookup", "testid")])
     = Some {| status := 404;
               body := BodyError (Errorf RESTGatewayInstanceNotFound []) |}
  /\ rejection (resolveParams (storeOver noopRegistry) toMethodStub toEventStub
                  postInstance [("instance_lookup", "testid"); ("method", "set")])
     = Some {| status := 404;
               body := BodyError (Errorf RESTGatewayInstanceNotFound []) |}.
Proof.
  destruct (unconfigured_lookup_is_404 noopRegistry) as (_ & Hg & Hi & _ & Hr).
  split; [reflexivity|]. split; [reflexivity|].
  split; [apply Hg; reflexivity|]. split; [apply Hi; reflexivity|].
  split.
  - apply (proj1 (Hr _ _ _ toMethodStub toEventStub postGateway
                     [("gateway_lookup", "testid")])); reflexivity.
  - apply (proj2 (Hr _ _ _ toMethodStub toEventStub postInstance
                     [("instance_lookup", "testid"); ("method", "set")])); reflexivity.
Defined.

End registry_props.

(** ** Byte strings *)

Module bytes_props.
Import gostrings eth.

Lemma app_cons (x : ascii) (a b : string) : String x a +:+ b = String x (a +:+ b).
Proof. reflexivity. Qed.

Lemma app_nil (b : string) : EmptyString +:+ b = b.
Proof. reflexivity. Qed.

Lemma length_app (a b : string) :
  String.length (a +:+ b) = (String.length a + String.length b)%nat.
Proof.
  induction a as [|c a IH]; [reflexivity|].
  rewrite app_cons. simpl. by f_equal.
Qed.

Lemma app_assoc_string (a b c : string) : (a +:+ b) +:+ c = a +:+ (b +:+ c).
Proof.
  induction a as [|x a IH]; [reflexivity|].
  rewrite !app_cons. by f_equal.
Qed.

Lemma substring_skip (a b : string) m :
  String.substring (String.length a) m (a +:+ b) = String.substring 0 m b.
Proof.
  induction a as [|c a IH]; [reflexivity|].
  rewrite app_cons. simpl. exact IH.
Qed.

Lemma substring_take (a b : string) :
  String.substring 0 (String.length a) (a +:+ b) = a.
Proof.
  induction a as [|c a IH].
  - rewrite app_nil. destruct b; reflexivity.
  - rewrite app_cons. simpl. by f_equal.
Qed.

Lemma substring_all (a : string) : String.substring 0 (String.length a) a = a.
Proof. induction a as [|c a IH]; simpl; [reflexivity | by f_equal]. Qed.

Lemma substring_shift (a b : string) n m :
  String.substring (String.length a + n) m (a +:+ b) = String.substring n m b.
Proof.
  induction a as [|c a IH]; [reflexivity|].
  rewrite app_cons. simpl. exact IH.
Qed.

Lemma prefix_app (p s : string) : String.prefix p (p +:+ s) = true.
Proof.
  induction p as [|c p IH]; [rewrite app_nil; by destruct s|].
  rewrite app_cons. simpl.
  destruct (ascii_dec c c); [exact IH | contradiction].
Qed.

Lemma TrimPrefix_app (p s : string) : TrimPrefix (p +:+ s) p = s.
Proof.
  unfold TrimPrefix. rewrite prefix_app, length_app.
  replace (String.length p + String.length s - String.length p)%nat
    with (String.length s) by lia.
  rewrite substring_skip. apply substring_all.
Qed.

(** [hex.DecodeString] undoes [hex.EncodeToString]. *)
Lemma hex_byte (c : ascii) :
  fromHexChar (lowerhex (nat_of_ascii c / 16)) = Some (nat_of_ascii c / 16)%nat
  /\ fromHexChar (lowerhex (nat_of_ascii c mod 16)) = Some (nat_of_ascii c mod 16)%nat
  /\ ascii_of_nat (16 * (nat_of_ascii c / 16) + nat_of_ascii c mod 16) = c.
Proof. destruct c as [[] [] [] [] [] [] [] []]; vm_compute; repeat split. Qed.

Lemma Decode_Encode (b : string) : DecodeString (EncodeToString b) = Some b.
Proof.
  induction b as [|c b IH]; [reflexivity|].
  cbn [EncodeToString DecodeString].
  destruct (hex_byte c) as (-> & -> & ->). by rewrite IH.
Qed.

(** Big-endian words. *)
Lemma list_ascii_of_string_app (a b : string) :
  list_ascii_of_string (a +:+ b)
  = (list_ascii_of_string a ++ list_ascii_of_string b)%list.
Proof.
  induction a as [|c a IH]; [reflexivity|].
  rewrite app_cons. simpl. by f_equal.
Qed.

Lemma be_to_N_snoc (a : string) (c : ascii) :
  be_to_N (a +:+ String c EmptyString) = (be_to_N a * 256 + N_of_ascii c)%N.
Proof.
  unfold be_to_N. rewrite list_ascii_of_string_app, fold_left_app. reflexivity.
Qed.

Lemma length_be_bytes k n : String.length (be_bytes k n) = k.
Proof.
  revert n. induction k as [|k IH]; intros n; cbn; [reflexivity|].
  rewrite length_app, IH. cbn. lia.
Qed.

Lemma be_to_N_be_bytes k n : be_to_N (be_bytes k n) = (n mod 256 ^ N.of_nat k)%N.
Proof.
  revert n. induction k as [|k IH]; intros n.
  - cbn. by rewrite N.mod_1_r.
  - cbn [be_bytes]. rewrite be_to_N_snoc, IH.
    rewrite N_ascii_embedding by (apply N.mod_lt; lia).
    rewrite Nat2N.inj_succ, N.pow_succ_r'.
    rewrite (N.Div0.mod_mul_r n 256 (256 ^ N.of_nat k)). lia.
Qed.

Lemma be_to_N_word32 n : (n < 2 ^ 256)%N -> be_to_N (word32 n) = n.
Proof.
  intros H. unfold word32. rewrite be_to_N_be_bytes.
  apply N.mod_small. change (256 ^ N.of_nat 32)%N with (2 ^ 256)%N. exact H.
Qed.

Lemma slice_Some (b : string) lo hi :
  (lo <= hi)%nat -> (hi <= String.length b)%nat ->
  slice b lo hi = Some (String.substring lo (hi - lo) b).
Proof.
  intros H1 H2. unfold slice.
  destruct (Nat.leb_spec lo hi); [|lia].
  destruct (Nat.leb_spec hi (String.length b)); [reflexivity | lia].
Qed.

End bytes_props.

(** ** Revert reasons *)

Module revert_props.
Import gostrings eth scenarios bytes_props.

(** The two slices of [decodeRevert] are within the bytes: the length is
    clamped before the second is taken. *)
Lemma decodeRevert_shape (hexString data : string) :
  DecodeString (TrimPrefix hexString revertSelector) = Some data ->
  (64 <= String.length data)%nat ->
  let strLen := be_to_N (String.substring 32 32 data) in
  let avail := N.of_nat (String.length data - 64) in
  let n := if (avail <? strLen)%N then avail else strLen in
  decodeRevert hexString = Ok (String.substring 64 (N.to_nat n) data).
Proof.
  intros Hd Hlen strLen avail n. unfold decodeRevert. rewrite Hd.
  destruct (Nat.ltb_spec (String.length data) 64); [lia|].
  rewrite (slice_Some data 32 64) by lia.
  change (64 - 32)%nat with 32%nat. fold strLen avail n.
  assert (Hn : (n <= avail)%N).
  { unfold n. destruct (N.ltb_spec avail strLen); lia. }
  rewrite (slice_Some data 64 (64 + N.to_nat n)) by lia.
  replace (64 + N.to_nat n - 64)%nat with (N.to_nat n) by lia. reflexivity.
Qed.

Lemma decodeRevert_never_panics (hexString : string) :
  decodeRevert hexString <> Panicked.
Proof.
  destruct (DecodeString (TrimPrefix hexString revertSelector)) as [data|] eqn:Hd.
  - destruct (Nat.ltb_spec (String.length data) 64) as [Hlt|Hge].
    + unfold decodeRevert. rewrite Hd.
      destruct (Nat.ltb_spec (String.length data) 64); [discriminate | lia].
    + rewrite (decodeRevert_shape _ _ Hd Hge). cbv zeta. discriminate.
  - unfold decodeRevert. rewrite Hd. discriminate.
Qed.

(** A well-formed reason is read back as it was written, whatever the
    offset word and the padding are. *)
Lemma decodeRevert_text (hexString offset text pad : string) :
  String.length offset = 32%nat ->
  (N.of_nat (String.length text) < 2 ^ 256)%N ->
  DecodeString (TrimPrefix hexString revertSelector)
  = Some (offset +:+ word32 (N.of_nat (String.length text)) +:+ text +:+ pad) ->
  decodeRevert hexString = Ok text.
Proof.
  intros Hoff Hsmall Hd.
  set (w := word32 (N.of_nat (String.length text))) in *.
  assert (Hw : String.length w = 32%nat) by apply length_be_bytes.
  assert (Hlen : String.length (offset +:+ w +:+ text +:+ pad)
                 = (64 + String.length text + String.length pad)%nat).
  { rewrite !length_app, Hoff, Hw. lia. }
  rewrite (decodeRevert_shape _ _ Hd) by lia. cbv zeta.
  assert (Hword : String.substring 32 32 (offset +:+ w +:+ text +:+ pad) = w).
  { rewrite <- Hoff at 1. rewrite substring_skip.
    rewrite <- Hw at 1. apply substring_take. }
  rewrite Hword, Hlen. unfold w at 1 2.
  rewrite be_to_N_word32 by exact Hsmall.
  destruct (N.ltb_spec (N.of_nat (64 + String.length text + String.length pad - 64))
                       (N.of_nat (String.length text))); [lia|].
  rewrite Nat2N.id. f_equal.
  replace 64%nat with (String.length (offset +:+ w)) by (rewrite length_app; lia).
  rewrite <- app_assoc_string, substring_skip. apply substring_take.
Qed.

Section Calls.
Context {R : Type} {rpcClient : RPCClient R}.

(** What [Call] makes of a payload that begins with the selector. *)
Lemma Call_revert (tx : Txn) (s : session) tag payload :
  snd (invoke s "eth_call" [ArgTx (callArgs tx); ArgString tag]) = (Some payload, None) ->
  HasPrefix payload revertSelector = true ->
  snd (Call tx s tag) = match decodeRevert payload with
                        | Ok text => Err text
                        | Err e => Err e
                        | Panicked => Panicked
                        end.
Proof.
  intros Hi Hp. unfold Call.
  destruct (invoke s "eth_call" [ArgTx (callArgs tx); ArgString tag]) as [s' [res err]].
  cbn [snd] in Hi. injection Hi as -> ->.
  change (default "" (Some payload)) with payload. cbv zeta.
  rewrite Hp. reflexivity.
Qed.

(** C4.  When [eth_call] returns, without an RPC error, a payload that
    begins with the selector 0x08c379a0: the ABI-encoded string that
    follows is decoded and is the text of the error, as it was encoded;
    a payload whose rest is not hex, or holds less than the offset word
    and the length word, gives "EVM reverted. Failed to decode error
    message"; a length word that exceeds the bytes that follow it gives
    all of those bytes; and in no case does the decoding panic. *)
Theorem revert_reason_surfaced :
  forall (tx : Txn) (s : session) (tag payload : string),
    snd (invoke s "eth_call" [ArgTx (callArgs tx); ArgString tag]) = (Some payload, None) ->
    HasPrefix payload revertSelector = true ->
    let outcome := snd (Call tx s tag) in
    (forall text,
       (N.of_nat (String.length text) < 2 ^ 256)%N ->
       payload = revertSelector +:+ EncodeToString (abiEncodeString text) ->
       outcome = Err text)
    /\ (forall offset text pad,
          String.length offset = 32%nat ->
          (N.of_nat (String.length text) < 2 ^ 256)%N ->
          DecodeString (TrimPrefix payload revertSelector)
          = Some (offset +:+ word32 (N.of_nat (String.length text)) +:+ text +:+ pad) ->
          outcome = Err text)
    /\ (DecodeString (TrimPrefix payload revertSelector) = None ->
        outcome = Err "EVM reverted. Failed to decode error message")
    /\ (forall data,
          DecodeString (TrimPrefix payload revertSelector) = Some data ->
          (String.length data < 64)%nat ->
          outcome = Err "EVM reverted. Failed to decode error message")
    /\ (forall data,
          DecodeString (TrimPrefix payload revertSelector) = Some data ->
          (64 <= String.length data)%nat ->
          (N.of_nat (String.length data - 64) <= be_to_N (String.substring 32 32 data))%N ->
          outcome = Err (String.substring 64 (String.length data - 64) data))
    /\ outcome <> Panicked
    /\ exists e, outcome = Err e.
Proof.
  intros tx s tag payload Hi Hp outcome.
  assert (Ho : outcome = match decodeRevert payload with
                         | Ok text => Err text
                         | Err e => Err e
                         | Panicked => Panicked
                         end) by (by apply Call_revert).
  assert (Htext : forall offset text pad,
            String.length offset = 32%nat ->
            (N.of_nat (String.length text) < 2 ^ 256)%N ->
            DecodeString (TrimPrefix payload revertSelector)
            = Some (offset +:+ word32 (N.of_nat (String.length text)) +:+ text +:+ pad) ->
            outcome = Err text).
  { intros offset text pad Hoff Hsmall Hd.
    by rewrite Ho, (decodeRevert_text _ _ _ _ Hoff Hsmall Hd). }
  split.
  { intros text Hsmall ->.
    apply (Htext (word32 32) text
                 (zeros ((32 - String.length text mod 32) mod 32)));
      [apply length_be_bytes | exact Hsmall |].
    rewrite TrimPrefix_app, Decode_Encode. reflexivity. }
  split; [exact Htext|].
  split.
  { intros Hd. rewrite Ho. unfold decodeRevert. by rewrite Hd. }
  split.
  { intros data Hd Hlt. rewrite Ho. unfold decodeRevert. rewrite Hd.
    destruct (Nat.ltb_spec (String.length data) 64); [reflexivity | lia]. }
  split.
  { intros data Hd Hge Hover. rewrite Ho, (decodeRevert_shape _ _ Hd Hge).
    cbv zeta.
    destruct (N.ltb_spec (N.of_nat (String.length data - 64))
                         (be_to_N (String.substring 32 32 data))) as [Hlt|Hle].
    - by rewrite Nat2N.id.
    - assert (Heq : be_to_N (String.substring 32 32 data)
                    = N.of_nat (String.length data - 64)) by lia.
      by rewrite Heq, Nat2N.id. }
  pose proof (decodeRevert_never_panics payload) as Hnp.
  rewrite Ho. destruct (decodeRevert payload) as [text|e|]; [| |done].
  - split; [discriminate | by exists text].
  - split; [discriminate | by exists e].
Qed.

End Calls.

(** TestCallMethodRevertBadStrLen and TestCallMethodRevertBadBytes. *)
Example revert_bad_length :
  snd (Call txCalcGas (start (returning revertPayloadBadStrLen)) "latest")
  = Err ("Muppetry detected" +:+ zeros 15).
Proof. vm_compute. reflexivity. Qed.

Example revert_bad_bytes :
  snd (Call txCalcGas (start (returning revertPayloadBadBytes)) "latest")
  = Err "EVM reverted. Failed to decode error message".
Proof. vm_compute. reflexivity. Qed.

(** TestCallMethodRevert. *)
Lemma revert_reason_surfaced_witness :
  snd (invoke (start (returning revertPayload)) "eth_call"
         [ArgTx (callArgs txCalcGas); ArgString "latest"]) = (Some revertPayload, None)
  /\ HasPrefix revertPayload revertSelector = true
  /\ snd (Call txCalcGas (start (returning revertPayload)) "latest")
     = Err "Muppetry detected".
Proof.
  split; [reflexivity|]. split; [reflexivity|].
  refine (proj1 (revert_reason_surfaced txCalcGas (start (returning revertPayload))
                   "latest" revertPayload eq_refl eq_refl) "Muppetry detected" _ _).
  - vm_compute. reflexivity.
  - vm_compute. reflexivity.
Defined.

End revert_props.

(** ** Block tags *)

Module blocktag_props.
Import gostrings eth scenarios.

Lemma uint_of_char_digit (a : ascii) (d : option Decimal.uint) :
  DecimalString.uint_of_char a d <> None -> is_digit a = true.
Proof.
  destruct d as [d|]; [|by cbn].
  destruct a as [[] [] [] [] [] [] [] []]; cbn; intros H; try reflexivity; by destruct H.
Qed.

(** What parses as a decimal number is made of digits. *)
Lemma parse_digits (s : string) (d : Decimal.uint) :
  DecimalString.NilEmpty.uint_of_string s = Some d -> all_chars is_digit s = true.
Proof.
  revert d. induction s as [|a s IH]; intros d; [reflexivity|].
  cbn [DecimalString.NilEmpty.uint_of_string all_chars]. intros H.
  rewrite (uint_of_char_digit a (DecimalString.NilEmpty.uint_of_string s))
    by (rewrite H; discriminate).
  destruct (DecimalString.NilEmpty.uint_of_string s) as [d'|] eqn:E.
  - by rewrite (IH d').
  - by destruct a as [[] [] [] [] [] [] [] []].
Qed.

Lemma parseDecimal_digits (s : string) (n : N) :
  parseDecimal s = Some n -> s <> "" /\ all_chars is_digit s = true.
Proof.
  unfold parseDecimal, DecimalString.NilZero.uint_of_string.
  destruct s as [|a s]; [discriminate|].
  destruct (DecimalString.NilEmpty.uint_of_string (String a s)) as [d|] eqn:E;
    [|discriminate].
  intros _. split; [discriminate | by apply (parse_digits _ d)].
Qed.

(** A run of digits is none of the literal tags and no 0x-number. *)
Lemma digits_not_tag (s : string) :
  all_chars is_digit s = true ->
  String.eqb s "latest" = false /\ String.eqb s "pending" = false
  /\ String.eqb s "earliest" = false /\ isHexNumber s = false.
Proof.
  intros H. repeat split.
  - destruct (String.eqb_spec s "latest") as [->|]; [discriminate H | reflexivity].
  - destruct (String.eqb_spec s "pending") as [->|]; [discriminate H | reflexivity].
  - destruct (String.eqb_spec s "earliest") as [->|]; [discriminate H | reflexivity].
  - unfold isHexNumber, HasPrefix.
    destruct (String.prefix "0x" s) eqn:E; [|reflexivity].
    apply String.prefix_correct in E.
    destruct s as [|c1 [|c2 r]]; simpl in E; try discriminate E.
    injection E as -> -> _. discriminate H.
Qed.

Lemma lower_hex_digits (d : Hexadecimal.uint) :
  all_chars is_lower_hexdigit (HexadecimalString.NilEmpty.string_of_uint d) = true.
Proof. induction d; cbn [HexadecimalString.NilEmpty.string_of_uint all_chars]; auto. Qed.

(** The hex that [encodeBig] writes is lowercase and reads back as the
    number. *)
Lemma encodeBig_spec (n : N) :
  exists h, encodeBig n = "0x" +:+ h
            /\ all_chars is_lower_hexdigit h = true
            /\ parseHex h = Some n.
Proof.
  unfold encodeBig. eexists. split; [reflexivity|].
  pose proof (HexadecimalN.Unsigned.of_to n) as Hn.
  unfold parseHex.
  destruct (N.to_hex_uint n) as [| | | | | | | | | | | | | | | | ] eqn:E;
    try (split;
         [ apply (lower_hex_digits (_ _))
         | rewrite HexadecimalString.NilZero.usu by discriminate;
           cbn [option_map]; by rewrite Hn ]).
  split; [reflexivity|]. cbn in Hn. subst n. reflexivity.
Qed.

Section Calls.
Context {R : Type} {rpcClient : RPCClient R}.

Lemma Call_calls (tx : Txn) (s : session) callOption :
  calls (fst (Call tx s callOption))
  = (calls s ++ [("eth_call", [ArgTx (callArgs tx); ArgString callOption])])%list.
Proof.
  unfold Call, invoke.
  destruct (CallContext (client s) "eth_call" [ArgTx (callArgs tx); ArgString callOption])
    as [r' [res [e|]]]; [reflexivity|].
  cbv zeta. destruct (HasPrefix (default "" res) revertSelector); reflexivity.
Qed.

(** C6.  [CallMethod] and its block tag, once the parameters are
    marshalled: the empty tag goes to [eth_call] as "latest"; "latest",
    "pending" and "earliest" go as they are; a 0x-prefixed hex number
    goes as it is; a decimal number goes as 0x and its lowercase hex
    ("12345" as "0x3039", "0" as "0x0"); any other tag fails with
    "Invalid blocknumber. Failed to parse into big integer" and the
    session is left as it was, without an [eth_call]. *)
Theorem blockTag_normalized :
  forall (tx : Txn) (s : session) (tag : string),
    (forall callOption,
       calls (fst (Call tx s callOption))
       = (calls s ++ [("eth_call", [ArgTx (callArgs tx); ArgString callOption])])%list)
    /\ (tag = "" -> CallMethod s (inr tx) tag = Call tx s "latest")
    /\ (tag = "latest" \/ tag = "pending" \/ tag = "earliest" ->
        CallMethod s (inr tx) tag = Call tx s tag)
    /\ (isHexNumber tag = true -> CallMethod s (inr tx) tag = Call tx s tag)
    /\ (forall n,
          parseDecimal tag = Some n ->
          CallMethod s (inr tx) tag = Call tx s (encodeBig n)
          /\ exists h, encodeBig n = "0x" +:+ h
                       /\ all_chars is_lower_hexdigit h = true
                       /\ parseHex h = Some n)
    /\ (parseDecimal "12345" = Some 12345%N /\ encodeBig 12345 = "0x3039"
        /\ parseDecimal "0" = Some 0%N /\ encodeBig 0 = "0x0")
    /\ (tag <> "" -> tag <> "latest" -> tag <> "pending" -> tag <> "earliest" ->
        isHexNumber tag = false -> parseDecimal tag = None ->
        CallMethod s (inr tx) tag
        = (s, Err "Invalid blocknumber. Failed to parse into big integer"))
    /\ (forall e, CallMethod s (inl e) tag = (s, Err e)).
Proof.
  intros tx s tag.
  split; [intros callOption; apply Call_calls|].
  split; [intros ->; reflexivity|].
  split; [intros [-> | [-> | ->]]; reflexivity|].
  split.
  { intros Hhex. unfold CallMethod, normalizeBlockTag. rewrite Hhex.
    destruct (String.eqb tag ""%string) eqn:E.
    - apply String.eqb_eq in E. subst tag. discriminate Hhex.
    - by rewrite !orb_true_r. }
  split.
  { intros n Hn. split; [|apply encodeBig_spec].
    destruct (parseDecimal_digits _ _ Hn) as [Hne Hdig].
    destruct (digits_not_tag _ Hdig) as (H1 & H2 & H3 & H4).
    unfold CallMethod, normalizeBlockTag.
    destruct (String.eqb_spec tag ""); [done|].
    by rewrite H1, H2, H3, H4, Hn. }
  split; [repeat split|].
  split.
  { intros H0 H1 H2 H3 H4 H5. unfold CallMethod, normalizeBlockTag.
    destruct (String.eqb_spec tag ""); [done|].
    destruct (String.eqb_spec tag "latest"); [done|].
    destruct (String.eqb_spec tag "pending"); [done|].
    destruct (String.eqb_spec tag "earliest"); [done|].
    by rewrite H4, H5. }
  reflexivity.
Qed.

End Calls.

(** TestCallMethod, by the second argument of the captured call, and the
    tag of TestCallMethodFail. *)
Example blockTags_of_TestCallMethod :
  map (fun tag => capturedArgs (client (fst (CallMethod (start testRPCClient0)
                                                        (inr txCalcGas) tag))))
      [""; "pending"; "earliest"; "0x1234"; "12345"; "0"; "ab2345"]
  = [ [ArgTx (callArgs txCalcGas); ArgString "latest"];
      [ArgTx (callArgs txCalcGas); ArgString "pending"];
      [ArgTx (callArgs txCalcGas); ArgString "earliest"];
      [ArgTx (callArgs txCalcGas); ArgString "0x1234"];
      [ArgTx (callArgs txCalcGas); ArgString "0x3039"];
      [ArgTx (callArgs txCalcGas); ArgString "0x0"];
      [] ].
Proof. vm_compute. reflexivity. Qed.

End blocktag_props.

(** ** Sending a transaction *)

Module send_props.
Import gostrings eth scenarios.

Section Sender.
Context {R : Type} {rpcClient : RPCClient R}.

Lemma invoke_spec (s : session) method args :
  invoke s method args
  = ({| client := fst (CallContext (client s) method args);
        calls := (calls s ++ [(method, args)])%list |},
     snd (CallContext (client s) method args)).
Proof. unfold invoke. by destruct (CallContext (client s) method args). Qed.

Lemma methods_snoc (s : @session R) (r : R) method args :
  methods {| client := r; calls := (calls s ++ [(method, args)])%list |}
  = (methods s ++ [method])%list.
Proof. unfold methods. cbn [calls]. by rewrite fmap_app. Qed.

Lemma Call_session (tx : Txn) (s : session) tag :
  fst (Call tx s tag)
  = {| client := fst (CallContext (client s) "eth_call"
                        [ArgTx (callArgs tx); ArgString tag]);
       calls := (calls s ++ [("eth_call", [ArgTx (callArgs tx); ArgString tag])])%list |}.
Proof.
  unfold Call. rewrite invoke_spec.
  destruct (snd (CallContext (client s) "eth_call" [ArgTx (callArgs tx); ArgString tag]))
    as [res [e|]]; [reflexivity|].
  cbv zeta. destruct (HasPrefix (default "" res) revertSelector); reflexivity.
Qed.


(** Step 1, when the estimate succeeds and when it fails. *)
Lemma calculateGas_ok (tx : Txn) (s : session) res :
  snd (CallContext (client s) "eth_estimateGas" [ArgTx (sendArgs tx 0)]) = (res, None) ->
  calculateGas tx s
  = ({| client := fst (CallContext (client s) "eth_estimateGas" [ArgTx (sendArgs tx 0)]);
        calls := (calls s ++ [("eth_estimateGas", [ArgTx (sendArgs tx 0)])])%list |},
     Ok (estimatedGas res)).
Proof. intros H. unfold calculateGas. rewrite invoke_spec, H. reflexivity. Qed.

Lemma calculateGas_failed (tx : Txn) (s : session) res estErr :
  snd (CallContext (client s) "eth_estimateGas" [ArgTx (sendArgs tx 0)])
  = (res, Some estErr) ->
  let s1 := {| client := fst (CallContext (client s) "eth_estimateGas"
                                [ArgTx (sendArgs tx 0)]);
               calls := (calls s ++ [("eth_estimateGas", [ArgTx (sendArgs tx 0)])])%list |} in
  calculateGas tx s
  = (fst (Call tx s1 "latest"),
     match snd (Call tx s1 "latest") with
     | Ok _ => Err ("Failed to calculate gas for transaction: " +:+ estErr)
     | Err e => Err e
     | Panicked => Panicked
     end).
Proof.
  intros H s1. unfold calculateGas. rewrite invoke_spec, H. fold s1.
  destruct (Call tx s1 "latest") as [s2 [p|e|]]; reflexivity.
Qed.

(** Step 1 calls [eth_estimateGas] first, and nothing but [eth_call]
    after it. *)
Lemma calculateGas_methods (tx : Txn) (s : session) :
  methods (fst (calculateGas tx s)) = (methods s ++ ["eth_estimateGas"])%list
  \/ methods (fst (calculateGas tx s))
     = (methods s ++ ["eth_estimateGas"; "eth_call"])%list.
Proof.
  destruct (snd (CallContext (client s) "eth_estimateGas" [ArgTx (sendArgs tx 0)]))
    as [res [e|]] eqn:E.
  - right. rewrite (calculateGas_failed _ _ _ _ E). cbv zeta. cbn [fst].
    rewrite Call_session, !methods_snoc. by rewrite <- app_assoc.
  - left. rewrite (calculateGas_ok _ _ _ E). cbn [fst]. apply methods_snoc.
Qed.

Lemma submit_calls (tx : Txn) from (s : session) method args :
  calls (fst (fst (submit tx from s method args)))
  = (calls s ++ [(method, args)])%list.
Proof.
  unfold submit. rewrite invoke_spec.
  destruct (snd (CallContext (client s) method args)) as [res [e|]]; reflexivity.
Qed.

Lemma sendSigned_methods signer (tx : Txn) gas (s : session) :
  methods (fst (fst (sendSigned signer tx gas s))) = methods s
  \/ methods (fst (fst (sendSigned signer tx gas s)))
     = (methods s ++ ["eth_sendRawTransaction"])%list.
Proof.
  unfold sendSigned.
  destruct (isPrivate tx && negb (supportsPrivate signer)); [by left|].
  destruct (Sign signer (ethTX tx gas)) as [e|[signed from]]; [by left|].
  right. unfold methods. rewrite submit_calls. by rewrite fmap_app.
Qed.

Lemma sendUnsigned_methods (tx : Txn) gas (s : session) :
  methods (fst (fst (sendUnsigned tx gas s))) = methods s
  \/ methods (fst (fst (sendUnsigned tx gas s)))
     = (methods s ++ ["eea_sendTransaction"])%list
  \/ methods (fst (fst (sendUnsigned tx gas s)))
     = (methods s ++ ["eth_sendTransaction"])%list.
Proof.
  unfold sendUnsigned.
  destruct (nonempty (PrivacyGroupID tx)).
  - destruct (nonempty (PrivateFrom tx)); [|by left].
    right; left. unfold methods. rewrite submit_calls. by rewrite fmap_app.
  - right; right.
    destruct (negb (emptyb (PrivateFor tx)));
      unfold methods; rewrite submit_calls; by rewrite fmap_app.
Qed.

(** After the gas is obtained, [Send] is step 2 or step 3. *)
Lemma Send_after_gas (tx : Txn) (s s1 : session) gas :
  obtainGas tx s = (s1, Ok gas) ->
  Send tx s = match Signer tx with
              | Some signer => sendSigned signer tx gas s1
              | None => sendUnsigned tx gas s1
              end.
Proof. intros H. unfold Send. rewrite H. reflexivity. Qed.

Lemma Send_methods_after (tx : Txn) (s : session) :
  exists tail, methods (fst (fst (Send tx s)))
               = (methods (fst (obtainGas tx s)) ++ tail)%list
               /\ "eth_estimateGas" ∉ tail.
Proof.
  unfold Send. destruct (obtainGas tx s) as [s1 [gas|e|]]; cbn [fst].
  - destruct (Signer tx) as [signer|].
    + destruct (sendSigned_methods signer tx gas s1) as [->| ->].
      * exists []. rewrite app_nil_r. split; [done | apply not_elem_of_nil].
      * eexists. split; [reflexivity|].
        intros H%list_elem_of_singleton. discriminate.
    + destruct (sendUnsigned_methods tx gas s1) as [->|[->| ->]].
      * exists []. rewrite app_nil_r. split; [done | apply not_elem_of_nil].
      * eexists. split; [reflexivity|].
        intros H%list_elem_of_singleton. discriminate.
      * eexists. split; [reflexivity|].
        intros H%list_elem_of_singleton. discriminate.
  - exists []. rewrite app_nil_r. split; [done | apply not_elem_of_nil].
  - exists []. rewrite app_nil_r. split; [done | apply not_elem_of_nil].
Qed.

(** C2, as the tests have it.  From a fresh session, [Send] calls
    [eth_estimateGas] if and only if no gas was supplied, with or without
    an offline signer.  With a signer that accepts the transaction and
    signs it, the signed bytes go out through [eth_sendRawTransaction]:
    alone when a gas was supplied, after [eth_estimateGas] when none was
    and the estimate succeeded. *)
Theorem estimateGas_iff_no_gas :
  forall (tx : Txn) (r : R),
    let s' := fst (fst (Send tx (start r))) in
    ("eth_estimateGas" ∈ methods s' <-> Gas tx = None)
    /\ (forall signer gas signed from,
          Signer tx = Some signer ->
          isPrivate tx && negb (supportsPrivate signer) = false ->
          Gas tx = Some gas ->
          Sign signer (ethTX tx gas) = inr (signed, from) ->
          calls s' = [("eth_sendRawTransaction",
                       [ArgString ("0x" +:+ EncodeToString signed)])])
    /\ (forall signer res signed from,
          Signer tx = Some signer ->
          isPrivate tx && negb (supportsPrivate signer) = false ->
          Gas tx = None ->
          snd (CallContext r "eth_estimateGas" [ArgTx (sendArgs tx 0)]) = (res, None) ->
          Sign signer (ethTX tx (estimatedGas res)) = inr (signed, from) ->
          calls s' = [("eth_estimateGas", [ArgTx (sendArgs tx 0)]);
                      ("eth_sendRawTransaction",
                       [ArgString ("0x" +:+ EncodeToString signed)])]).
Proof.
  intros tx r s'. split; [|split].
  - destruct (Send_methods_after tx (start r)) as (tail & Hm & Htail).
    fold s' in Hm. rewrite Hm. unfold obtainGas.
    destruct (Gas tx) as [g|]; cbn [fst].
    + split; [|discriminate].
      intros [H|H]%elem_of_app; [by apply elem_of_nil in H | done].
    + split; [done|]. intros _. apply elem_of_app. left.
      destruct (calculateGas_methods tx (start r)) as [-> | ->]; cbn;
        apply list_elem_of_here.
  - intros signer gas signed from Hs Hp Hg Hsign. unfold s'.
    rewrite (Send_after_gas tx (start r) (start r) gas)
      by (unfold obtainGas; by rewrite Hg).
    rewrite Hs. unfold sendSigned. rewrite Hp, Hsign. by rewrite submit_calls.
  - intros signer res signed from Hs Hp Hg Hest Hsign. unfold s'.
    erewrite Send_after_gas
      by (unfold obtainGas; rewrite Hg; by apply calculateGas_ok).
    rewrite Hs. unfold sendSigned. rewrite Hp, Hsign. by rewrite submit_calls.
Qed.

(** Obtaining the gas makes no send call. *)
Lemma obtainGas_no_send (tx : Txn) (r : R) :
  forall m, m ∈ methods (fst (obtainGas tx (start r))) -> is_send_method m = false.
Proof.
  intros m. unfold obtainGas. destruct (Gas tx) as [g|]; cbn [fst].
  - intros H. by apply elem_of_nil in H.
  - destruct (calculateGas_methods tx (start r)) as [-> | ->]; cbn;
      intros H; repeat (apply elem_of_cons in H as [->|H]; [reflexivity|]);
      by apply elem_of_nil in H.
Qed.

(** C3.  Without an offline signer, once the gas is there (supplied, or
    estimated with success), the send is chosen by the privacy fields: a
    privacy group with a private-from goes out through
    [eea_sendTransaction]; a privacy group without a private-from fails
    with "private-from is required when submitting private transactions
    via Orion" and nothing is sent; without a privacy group, private-for
    parties go out through [eth_sendTransaction] with the [privateFor]
    field; and anything else through [eth_sendTransaction] with no
    privacy field of either kind.  The calls before the send are no send
    calls. *)
Theorem send_method_by_privacy :
  forall (tx : Txn) (r : R) (s1 : session) (gas : N),
    Signer tx = None ->
    obtainGas tx (start r) = (s1, Ok gas) ->
    let args := sendArgs tx gas in
    let s' := fst (fst (Send tx (start r))) in
    (forall m, m ∈ methods s1 -> is_send_method m = false)
    /\ (PrivacyGroupID tx <> "" -> PrivateFrom tx <> "" ->
        calls s' = (calls s1 ++ [("eea_sendTransaction", [ArgTx args])])%list
        /\ a_privacyGroupId args = PrivacyGroupID tx
        /\ a_privateFrom args = PrivateFrom tx)
    /\ (PrivacyGroupID tx <> "" -> PrivateFrom tx = "" ->
        Send tx (start r)
        = (s1, tx,
           Err "private-from is required when submitting private transactions via Orion"))
    /\ (PrivacyGroupID tx = "" -> PrivateFor tx <> [] ->
        calls s' = (calls s1 ++ [("eth_sendTransaction", [ArgTx args])])%list
        /\ a_privateFor args = PrivateFor tx)
    /\ (PrivacyGroupID tx = "" -> PrivateFor tx = [] ->
        calls s' = (calls s1 ++ [("eth_sendTransaction", [ArgTx args])])%list
        /\ a_privateFor args = [] /\ a_privacyGroupId args = "").
Proof.
  intros tx r s1 gas Hs Hg args s'.
  assert (HS : Send tx (start r) = sendUnsigned tx gas s1)
    by (rewrite (Send_after_gas _ _ _ _ Hg); by rewrite Hs).
  split.
  { pose proof (obtainGas_no_send tx r) as H. by rewrite Hg in H. }
  unfold s'. rewrite HS. unfold sendUnsigned, nonempty. fold args.
  split; [|split; [|split]].
  - intros H1 H2.
    destruct (String.eqb_spec (PrivacyGroupID tx) ""); [done|].
    destruct (String.eqb_spec (PrivateFrom tx) ""); [done|].
    cbn [negb]. by rewrite submit_calls.
  - intros H1 H2.
    destruct (String.eqb_spec (PrivacyGroupID tx) ""); [done|].
    rewrite H2. reflexivity.
  - intros H1 H2. rewrite H1. cbn [String.eqb negb].
    split; [|reflexivity].
    destruct (negb (emptyb (PrivateFor tx))); by rewrite submit_calls.
  - intros H1 H2. rewrite H1. cbn [String.eqb negb].
    split; [|split; [exact H2 | exact H1]].
    destruct (negb (emptyb (PrivateFor tx))); by rewrite submit_calls.
Qed.



End Sender.


(** The counterexample to C2 as it is stated: TestSendWithTXSignerOK.  A
    signer is configured and no gas is supplied; the first call captured
    is [eth_estimateGas], the second [eth_sendRawTransaction]. *)
Lemma estimateGas_despite_signer :
  let s' := fst (fst (Send txSignerNoGas (start testRPCClient0))) in
  is_Some (Signer txSignerNoGas)
  /\ estimates_by_the_document txSignerNoGas = false
  /\ capturedMethod (client s') = "eth_estimateGas"
  /\ capturedMethod2 (client s') = "eth_sendRawTransaction"
  /\ capturedArgs2 (client s') = [ArgString "0x746573746279746573"]
  /\ ~ ("eth_estimateGas" ∈ methods s'
        <-> Gas txSignerNoGas = None /\ Signer txSignerNoGas = None).
Proof.
  cbv zeta. split; [by eexists|]. split; [reflexivity|].
  split; [reflexivity|]. split; [reflexivity|]. split; [reflexivity|].
  intros [H _].
  assert (Hin : "eth_estimateGas"
                ∈ methods (fst (fst (Send txSignerNoGas (start testRPCClient0)))))
    by (vm_compute; apply list_elem_of_here).
  destruct (H Hin) as [_ Hs]. discriminate Hs.
Qed.

(** TestSendWithTXSignerOK and TestNewContractWithTXSignerOK. *)
Lemma estimateGas_iff_no_gas_witness :
  calls (fst (fst (Send txSignerGas (start testRPCClient0))))
  = [("eth_sendRawTransaction", [ArgString "0x746573746279746573"])]
  /\ calls (fst (fst (Send txSignerNoGas (start testRPCClient0))))
     = [("eth_estimateGas", [ArgTx (sendArgs txSignerNoGas 0)]);
        ("eth_sendRawTransaction", [ArgString "0x746573746279746573"])].
Proof.
  split.
  - exact (proj1 (proj2 (estimateGas_iff_no_gas txSignerGas testRPCClient0))
             mockTXSigner 456%N "testbytes" "0xAA983AD2a0e0eD8ac639277F37be42F2A5d2618c"
             eq_refl eq_refl eq_refl eq_refl).
  - exact (proj2 (proj2 (estimateGas_iff_no_gas txSignerNoGas testRPCClient0))
             mockTXSigner None "testbytes" "0xAA983AD2a0e0eD8ac639277F37be42F2A5d2618c"
             eq_refl eq_refl eq_refl eq_refl eq_refl).
Defined.

(** TestNewContractDeployTxnSimpleStoragePrivateOrion,
    TestNewContractDeployTxnSimpleStoragePrivateOrionMissingPrivateFrom,
    TestNewContractDeployTxnSimpleStoragePrivate and
    TestNewContractDeployTxnSimpleStorageCalcGas, by the two methods
    captured. *)
Example privacy_tests :
  map (fun tx => let s := fst (fst (Send tx (start testRPCClient0))) in
                 (capturedMethod (client s), capturedMethod2 (client s),
                  snd (Send tx (start testRPCClient0))))
      [txOrion "oD76ZRgu6py/WKrsXbtF9++Mf1mxVxzqficE1Uiw6S8="; txOrion "";
       txPrivateFor; txCalcGas]
  = [ ("eth_estimateGas", "eea_sendTransaction", Ok tt);
      ("eth_estimateGas", "",
       Err "private-from is required when submitting private transactions via Orion");
      ("eth_estimateGas", "eth_sendTransaction", Ok tt);
      ("eth_estimateGas", "eth_sendTransaction", Ok tt) ].
Proof. vm_compute. reflexivity. Qed.

Lemma send_method_by_privacy_witness :
  Signer (txOrion "") = None
  /\ obtainGas (txOrion "") (start testRPCClient0)
     = (fst (obtainGas (txOrion "") (start testRPCClient0)), Ok 0%N)
  /\ Send (txOrion "") (start testRPCClient0)
     = (fst (obtainGas (txOrion "") (start testRPCClient0)), txOrion "",
        Err "private-from is required when submitting private transactions via Orion").
Proof.
  split; [reflexivity|]. split; [reflexivity|].
  refine (proj1 (proj2 (proj2 (send_method_by_privacy (txOrion "") testRPCClient0
                                 _ 0%N eq_refl eq_refl))) _ eq_refl).
  discriminate.
Defined.


(** TestSendWithTXSignerFailPrivate and TestSendTxnRPFError. *)
Example signer_rejects_private :
  snd (Send {| NodeAssignNonce := false; Nonce := 0;
               From := "hd-u0abcd1234-u0bcde9876-12345";
               To := Some "0x2b8c0ECc76d0759a8F50b2E14A6881367D805832";
               Gas := Some 456%N; GasPrice := 789; Value := 0; Data := "";
               Signer := Some mockTXSigner; PrivateFrom := "";
               PrivateFor := ["anything"]; PrivacyGroupID := ""; Hash := "" |}
            (start testRPCClient0))
  = Err "Signing with mock signer is not currently supported with private transactions".
Proof. reflexivity. Qed.

Example send_rpc_error :
  let tx := {| NodeAssignNonce := false; Nonce := 12345;
               From := "0xAA983AD2a0e0eD8ac639277F37be42F2A5d2618c";
               To := Some "0x2b8c0ECc76d0759a8F50b2E14A6881367D805832";
               Gas := Some 456%N; GasPrice := 789; Value := 0; Data := "";
               Signer := None; PrivateFrom := ""; PrivateFor := [];
               PrivacyGroupID := ""; Hash := "" |} in
  snd (Send tx (start (failing (Some "pop") None))) = Err "pop"
  /\ capturedMethod (client (fst (fst (Send tx (start (failing (Some "pop") None))))))
     = "eth_sendTransaction".
Proof. split; reflexivity. Qed.

End send_props.
